(** * ConfigHandler.py: a shallow embedding of the [Config] class

    The class keeps one JSON or TOML file on disk.  Its methods are
    embedded as computations over an explicit filesystem state that may end
    in a Python exception; a raised exception keeps whatever the method did
    to the filesystem before raising (an [open(..., 'w')] has already
    truncated the file).

    Conventions of the model.
    - Python [str] and [bytes] are Rocq strings; a text is held as the bytes
      of its UTF-8 encoding, so [encode('utf-8')] and [decode('utf-8')] do
      not change the representation.  [str.lower] acts on ASCII letters.
    - A dict is a finite map with string keys (a JSON object, a TOML table).
      The order in which a dict holds its keys, which decides the layout of
      the text a writer produces, is not modelled.
    - The filesystem maps a path, taken as the string the program passes,
      to a regular file or a directory.  Opening a file does not look at
      its parent directory, which [open] needs: where a statement says that
      a call returns, it is about a store whose file has its directory, as
      every [.json] or [.toml] store has that a construction returned.
      Permissions, symbolic links and different spellings of one path are
      outside the model.  [path_usable] says that the path of a store is
      not taken by a directory.
    - [json], [tomli_w] and [tomllib] are not part of the repository: the
      methods are written against an interface ([Codec]); [Ref] is an
      executable instance on which the model can be run. *)

From Stdlib Require Import ZArith Ascii String.
From stdpp Require Import base strings pretty gmap list.

Set Warnings "-register-all".
Open Scope string_scope.

(** ** Python strings *)

Module Str.

Definition nl : string := String "010"%char EmptyString.

Definition ascii_lower (c : ascii) : ascii :=
  let n := nat_of_ascii c in
  if (65 <=? n)%nat && (n <=? 90)%nat then ascii_of_nat (n + 32) else c.

(** [s.lower()] *)
Fixpoint lower (s : string) : string :=
  match s with
  | EmptyString => EmptyString
  | String c s' => String (ascii_lower c) (lower s')
  end.

(** [s.startswith(p)] *)
Fixpoint startswith (p s : string) : bool :=
  match p, s with
  | EmptyString, _ => true
  | String a p', String b s' => bool_decide (a = b) && startswith p' s'
  | String _ _, EmptyString => false
  end.

(** [s.endswith(p)] *)
Definition endswith (p s : string) : bool :=
  startswith (String.rev p) (String.rev s).

(** [sub in s] *)
Fixpoint contains (sub s : string) : bool :=
  startswith sub s ||
  match s with
  | EmptyString => false
  | String _ s' => contains sub s'
  end.

(** [sep.join(l)] *)
Definition join (sep : string) (l : list string) : string :=
  String.concat sep l.

End Str.

(** ** Python values and exceptions *)

Inductive pyval :=
| PyNone
| PyBool (b : bool)
| PyInt (z : Z)
| PyStr (s : string)
| PyList (l : list pyval)
| PyDict (d : gmap string pyval).

(** [isinstance(v, dict)] *)
Definition isinstance_dict (v : pyval) : bool :=
  match v with PyDict _ => true | _ => false end.

Inductive exn :=
| ValueError (msg : string)
| TypeError
| AttributeError
| JSONDecodeError
| TOMLDecodeError
| FileNotFoundError
| FileExistsError
| IsADirectoryError
| NotADirectoryError.

(** ** The filesystem and the computations over it *)

Inductive node :=
| File (content : string)
| Dir.

Abbreviation filesystem := (gmap string node).

Definition io (A : Type) : Type := filesystem → (exn + A) * filesystem.

#[global] Instance io_ret : MRet io := λ A x fs, (inr x, fs).

#[global] Instance io_bind : MBind io := λ A B k m fs,
  match m fs with
  | (inl e, fs') => (inl e, fs')
  | (inr a, fs') => k a fs'
  end.

Definition raise {A} (e : exn) : io A := λ fs, (inl e, fs).

(** The value of an optional library result, or the library's exception. *)
Definition or_raise {A} (o : option A) (e : exn) : io A :=
  match o with
  | Some a => mret a
  | None => raise e
  end.

Module Os.

(** [os.path.join(a, b)] of posixpath, for two components. *)
Definition path_join (a b : string) : string :=
  if Str.startswith "/" b then b
  else if bool_decide (a = "") || Str.endswith "/" a then a +:+ b
  else a +:+ "/" +:+ b.

(** [os.path.exists(p)] *)
Definition path_exists (p : string) : io bool :=
  λ fs, (inr (bool_decide (is_Some (fs !! p))), fs).

(** The prefixes of [rest], read after [pre], that stop in front of a
    separator, shortest first, and then the whole path: the directories
    [os.makedirs] walks through. *)
Fixpoint segments (pre rest : string) : list string :=
  match rest with
  | EmptyString => [pre]
  | String c rest' =>
      (if bool_decide (c = "/"%char) && negb (bool_decide (pre = ""))
          && negb (Str.endswith "/" pre)
       then [pre] else [])
      ++ segments (pre +:+ String c EmptyString) rest'
  end.

Fixpoint mkdir_each (ps : list string) : io unit :=
  match ps with
  | [] => mret tt
  | p :: ps' => λ fs,
      match fs !! p, ps' with
      | None, _ => mkdir_each ps' (<[p := Dir]> fs)
      | Some Dir, _ :: _ => mkdir_each ps' fs
      | Some Dir, [] => (inl FileExistsError, fs)
      | Some (File _), _ :: _ => (inl NotADirectoryError, fs)
      | Some (File _), [] => (inl FileExistsError, fs)
      end
  end.

(** [os.makedirs(p)]: creates the missing parents, then [p] itself, which
    must not exist yet. *)
Definition makedirs (p : string) : io unit :=
  mkdir_each (segments "" p).

(** [open(p, 'w')] and [open(p, 'wb')]: the file is created or truncated;
    the handle is the path. *)
Definition open_w (p : string) : io string :=
  λ fs, match fs !! p with
        | Some Dir => (inl IsADirectoryError, fs)
        | _ => (inr p, <[p := File ""]> fs)
        end.

(** [f.write(text)] on a handle opened for writing. *)
Definition write (f : string) (text : string) : io unit :=
  λ fs, match fs !! f with
        | Some (File c) => (inr tt, <[f := File (c +:+ text)]> fs)
        | Some Dir => (inl IsADirectoryError, fs)
        | None => (inl FileNotFoundError, fs)
        end.

(** [open(p, 'rb')] *)
Definition open_rb (p : string) : io string :=
  λ fs, match fs !! p with
        | Some (File _) => (inr p, fs)
        | Some Dir => (inl IsADirectoryError, fs)
        | None => (inl FileNotFoundError, fs)
        end.

(** [f.read()] on a handle opened for reading. *)
Definition read (f : string) : io string :=
  λ fs, match fs !! f with
        | Some (File c) => (inr c, fs)
        | Some Dir => (inl IsADirectoryError, fs)
        | None => (inl FileNotFoundError, fs)
        end.

(** [os.remove(p)] *)
Definition remove (p : string) : io unit :=
  λ fs, match fs !! p with
        | Some (File _) => (inr tt, delete p fs)
        | Some Dir => (inl IsADirectoryError, fs)
        | None => (inl FileNotFoundError, fs)
        end.

End Os.

(** ** The serialisation libraries *)

(** What the class uses of [json], [tomli_w] and [tomllib].  [None] stands
    for the library's exception: [json.JSONDecodeError] for [json_load],
    [TypeError] for [tomli_w_dumps] (an object it cannot serialise) and
    [tomllib.TOMLDecodeError] for [tomllib_loads]. *)
Class Codec := {
  (** the text [json.dump(obj, f, indent=indent)] writes to [f] *)
  json_dump : option nat → pyval → string;
  (** [json.load(f)] applied to the bytes of the file *)
  json_load : string → option pyval;
  tomli_w_dumps : pyval → option string;
  tomllib_loads : string → option pyval
}.

Definition encode_utf8 (s : string) : string := s.
Definition decode_utf8 (b : string) : string := b.

(** ** The class *)

Record Config := {
  config_name : string;
  file_type : string;
  default_directory : string;
  file_path : string
}.

Definition ACCEPTED_CONFIG_TYPES : list string := ["json"; "toml"].

Definition InvalidFormat : exn :=
  ValueError ("Config File must contain one of these types: "
              +:+ Str.join ", " ACCEPTED_CONFIG_TYPES +:+ "!").

Definition InvalidSerialization (contents_str : string) : exn :=
  ValueError ("The following is not valid TOML code:" +:+ Str.nl +:+ contents_str).

Definition InvalidArgument : exn :=
  ValueError "New Values must be in a dict format!".

(** [d.update(new_values)]: the keys of [new_values] win. *)
Definition dict_update (d new_values : pyval) : io pyval :=
  match d, new_values with
  | PyDict d, PyDict n => mret (PyDict (n ∪ d))
  | PyDict _, _ => raise TypeError
  | _, _ => raise AttributeError
  end.

(** [default_directory or os.getcwd()]: [None] and the empty string are
    replaced by the working directory. *)
Definition or_getcwd (default_directory : option string) (cwd : string) : string :=
  match default_directory with
  | Some d => if bool_decide (d = "") then cwd else d
  | None => cwd
  end.

Section Methods.
Context {L : Codec}.

Definition _check_file_type (file_type : string) : string :=
  if negb (Str.contains "." file_type) then "." +:+ file_type
  else file_type.

Definition add_content (self : Config) (contents : pyval) : io unit :=
  if bool_decide (file_type self = ".json") then
    f ← Os.open_w (file_path self);
    Os.write f (json_dump None contents)
  else if bool_decide (file_type self = ".toml") then
    f ← Os.open_w (file_path self);
    contents_str ← or_raise (tomli_w_dumps contents) TypeError;
    (match tomllib_loads contents_str with
     | Some _ => mret tt
     | None => raise (InvalidSerialization contents_str)
     end) ;;
    let contents_bytes := encode_utf8 contents_str in
    Os.write f contents_bytes
  else mret tt.

Definition get_content (self : Config) : io pyval :=
  present ← Os.path_exists (file_path self);
  if negb present then mret (PyDict ∅)
  else
    f ← Os.open_rb (file_path self);
    if bool_decide (file_type self = ".json") then
      text ← Os.read f;
      or_raise (json_load text) JSONDecodeError
    else if bool_decide (file_type self = ".toml") then
      contents_bytes ← Os.read f;
      let contents_str := decode_utf8 contents_bytes in
      or_raise (tomllib_loads contents_str) TOMLDecodeError
    else mret PyNone.

Definition update_content (self : Config) (new_values : pyval) : io unit :=
  if negb (isinstance_dict new_values) then raise InvalidArgument
  else
    file_contents ← get_content self;
    f ← Os.open_w (file_path self);
    if bool_decide (file_type self = ".json") then
      file_contents ← dict_update file_contents new_values;
      Os.write f (json_dump (Some 2%nat) file_contents)
    else if bool_decide (file_type self = ".toml") then
      file_contents ← dict_update file_contents new_values;
      add_content self file_contents
    else mret tt.

Definition destroy_config (self : Config) : io unit :=
  Os.remove (file_path self).

(** [Config(file_name, file_type, default_directory)]; [cwd] is what
    [os.getcwd()] returns. *)
Definition __init__ (cwd : string) (file_name file_type : string)
    (default_directory : option string) : io Config :=
  let default_directory := or_getcwd default_directory cwd in
  if negb (existsb (λ config_type,
              Str.contains (Str.lower config_type) (Str.lower file_type))
             ACCEPTED_CONFIG_TYPES)
  then raise InvalidFormat
  else
    let file_type := _check_file_type file_type in
    let file_path := Os.path_join default_directory (file_name +:+ file_type) in
    let self := {| config_name := file_name; file_type := file_type;
                   default_directory := default_directory;
                   file_path := file_path |} in
    present ← Os.path_exists default_directory;
    (if negb present then Os.makedirs default_directory else mret tt) ;;
    present ← Os.path_exists file_path;
    (if negb present then add_content self (PyDict ∅) else mret tt) ;;
    mret self.

(** The path a construction derives from its arguments, and the object
    it returns when it succeeds. *)
Definition derived_path (cwd : string) (file_name file_type : string)
    (default_directory : option string) : string :=
  Os.path_join (or_getcwd default_directory cwd)
    (file_name +:+ _check_file_type file_type).

Definition constructed (cwd : string) (file_name file_type : string)
    (default_directory : option string) : Config :=
  {| config_name := file_name;
     file_type := _check_file_type file_type;
     default_directory := or_getcwd default_directory cwd;
     file_path := derived_path cwd file_name file_type default_directory |}.

(** The test of line 49. *)
Definition format_accepted (file_type : string) : bool :=
  existsb (λ config_type,
      Str.contains (Str.lower config_type) (Str.lower file_type))
    ACCEPTED_CONFIG_TYPES.

(** A value the JSON writer and reader carry through unchanged, under
    the given [indent]. *)
Definition json_representable (indent : option nat) (m : pyval) : Prop :=
  json_load (json_dump indent m) = Some m.

(** A value the TOML writer accepts and the TOML reader gives back. *)
Definition toml_representable (m : pyval) : Prop :=
  ∃ text, tomli_w_dumps m = Some text ∧ tomllib_loads text = Some m.

(** Representable in the format of a store of type [ft]. *)
Definition representable (ft : string) (indent : option nat) (m : pyval) : Prop :=
  (ft = ".json" ∧ json_representable indent m) ∨
  (ft = ".toml" ∧ toml_representable m).

(** The TOML writer raises on [m], or writes a text that does not parse. *)
Definition toml_write_fails (m : pyval) : Prop :=
  tomli_w_dumps m = None ∨
  ∃ text, tomli_w_dumps m = Some text ∧ tomllib_loads text = None.

(** The path of the store is free or holds a regular file: a file can be
    opened there. *)
Definition path_usable (self : Config) (fs : filesystem) : Prop :=
  fs !! file_path self ≠ Some Dir.

End Methods.

(** ** The script under [if __name__ == '__main__'] *)

Section Driver.
Context {L : Codec}.

(** The script; its result is the list of the values it prints. *)
Definition __main__ (cwd : string) : io (list pyval) :=
  test_file ← __init__ cwd "test" "" None;
  add_content test_file (PyDict {["test" := PyStr "test"]}) ;;
  printed1 ← get_content test_file;
  update_content test_file (PyDict {["test2" := PyStr "test2"]}) ;;
  printed2 ← get_content test_file;
  destroy_config test_file ;;
  mret [printed1; printed2].

(** The text the writer of a store of type [ft] produces for [m], if it
    produces one. *)
Definition serialised (ft : string) (indent : option nat) (m : pyval)
    : option string :=
  if bool_decide (ft = ".json") then Some (json_dump indent m)
  else if bool_decide (ft = ".toml") then tomli_w_dumps m
  else None.

(** A store whose type is one of the two that the methods act on. *)
Definition dispatched (self : Config) : Prop :=
  file_type self = ".json" ∨ file_type self = ".toml".

End Driver.

(** ** An executable instance of the libraries

    A printer and a parser for the values above, for strings of printable
    ASCII characters.  JSON text has the layout of Python's [json.dump]
    (separators [", "] and [": "], or one item per line under [indent]).
    The TOML writer follows [tomli_w] in rejecting [None] with a
    [TypeError]; it writes one [key = value] line per top-level key and
    nested values inline, which is the same document in a simpler layout. *)

Module Ref.

Definition dq : ascii := "034"%char.
Definition bs : ascii := "092"%char.

Fixpoint escape (s : string) : string :=
  match s with
  | EmptyString => EmptyString
  | String c s' =>
      if bool_decide (c = dq) || bool_decide (c = bs)
      then String bs (String c (escape s'))
      else String c (escape s')
  end.

Definition quote (s : string) : string :=
  String dq (escape s +:+ String dq EmptyString).

Fixpoint spaces (n : nat) : string :=
  match n with
  | O => EmptyString
  | S n' => String " "%char (spaces n')
  end.

Definition enclose (opening closing : string) (indent : option nat)
    (level : nat) (items : list string) : string :=
  match items, indent with
  | [], _ => opening +:+ closing
  | _, None => opening +:+ Str.join ", " items +:+ closing
  | _, Some n =>
      opening +:+ Str.nl +:+ spaces (n * S level)
      +:+ Str.join ("," +:+ Str.nl +:+ spaces (n * S level)) items
      +:+ Str.nl +:+ spaces (n * level) +:+ closing
  end.

Fixpoint json_text (indent : option nat) (level : nat) (v : pyval) : string :=
  match v with
  | PyNone => "null"
  | PyBool true => "true"
  | PyBool false => "false"
  | PyInt z => pretty z
  | PyStr s => quote s
  | PyList l =>
      enclose "[" "]" indent level (map (json_text indent (S level)) l)
  | PyDict d =>
      enclose "{" "}" indent level
        (map_fold (λ k x acc,
           (quote k +:+ ": " +:+ json_text indent (S level) x) :: acc) [] d)
  end.

Definition is_bare_char (c : ascii) : bool :=
  let n := nat_of_ascii c in
  ((48 <=? n)%nat && (n <=? 57)%nat) || ((65 <=? n)%nat && (n <=? 90)%nat)
  || ((97 <=? n)%nat && (n <=? 122)%nat)
  || bool_decide (c = "_"%char) || bool_decide (c = "-"%char).

Fixpoint all_bare (s : string) : bool :=
  match s with
  | EmptyString => true
  | String c s' => is_bare_char c && all_bare s'
  end.

Definition toml_key (k : string) : string :=
  if negb (bool_decide (k = "")) && all_bare k then k else quote k.

Fixpoint toml_value (v : pyval) : option string :=
  match v with
  | PyNone => None
  | PyBool true => Some "true"
  | PyBool false => Some "false"
  | PyInt z => Some (pretty z)
  | PyStr s => Some (quote s)
  | PyList l =>
      items ← foldr (λ x acc, t ← toml_value x; ts ← acc; Some (t :: ts))
                     (Some []) l;
      Some (enclose "[" "]" None 0 items)
  | PyDict d =>
      items ← map_fold (λ k x acc,
                 t ← toml_value x; ts ← acc;
                 Some ((toml_key k +:+ " = " +:+ t) :: ts)) (Some []) d;
      Some (enclose "{" "}" None 0 items)
  end.

Definition toml_text (v : pyval) : option string :=
  match v with
  | PyDict d =>
      map_fold (λ k x acc,
        t ← toml_value x; rest ← acc;
        Some (toml_key k +:+ " = " +:+ t +:+ Str.nl +:+ rest)) (Some "") d
  | _ => None
  end.

(** *** Parsing *)

Inductive syntax := Json | Toml.

Definition is_blank (c : ascii) : bool :=
  bool_decide (c = " "%char) || bool_decide (c = "009"%char).

Definition is_space (c : ascii) : bool :=
  is_blank c || bool_decide (c = "010"%char) || bool_decide (c = "013"%char).

Fixpoint skip (p : ascii → bool) (s : string) : string :=
  match s with
  | String c s' => if p c then skip p s' else s
  | EmptyString => EmptyString
  end.

Fixpoint string_body (s : string) : option (string * string) :=
  match s with
  | EmptyString => None
  | String c s' =>
      if bool_decide (c = dq) then Some (EmptyString, s')
      else if bool_decide (c = bs) then
        match s' with
        | String e s'' =>
            if bool_decide (e = dq) || bool_decide (e = bs)
            then '(r, rest) ← string_body s''; Some (String e r, rest)
            else None
        | EmptyString => None
        end
      else '(r, rest) ← string_body s'; Some (String c r, rest)
  end.

Definition digit (c : ascii) : option Z :=
  let n := nat_of_ascii c in
  if (48 <=? n)%nat && (n <=? 57)%nat then Some (Z.of_nat (n - 48)) else None.

Fixpoint digits (s : string) (acc : Z) (seen : bool) : option (Z * string) :=
  match s with
  | String c s' =>
      match digit c with
      | Some d => digits s' (10 * acc + d)%Z true
      | None => if seen then Some (acc, s) else None
      end
  | EmptyString => if seen then Some (acc, s) else None
  end.

Definition integer (s : string) : option (pyval * string) :=
  match s with
  | String "-"%char s' => '(n, rest) ← digits s' 0%Z false; Some (PyInt (- n), rest)
  | _ => '(n, rest) ← digits s 0%Z false; Some (PyInt n, rest)
  end.

Fixpoint bare_key (s : string) : string * string :=
  match s with
  | String c s' =>
      if is_bare_char c then let '(k, rest) := bare_key s' in (String c k, rest)
      else (EmptyString, s)
  | EmptyString => (EmptyString, EmptyString)
  end.

Definition key (syn : syntax) (s : string) : option (string * string) :=
  match s with
  | String c s' =>
      if bool_decide (c = dq) then string_body s'
      else match syn with
           | Json => None
           | Toml => let '(k, rest) := bare_key s in
                     if bool_decide (k = "") then None else Some (k, rest)
           end
  | EmptyString => None
  end.

Definition expect (c : ascii) (s : string) : option string :=
  match s with
  | String c' s' => if bool_decide (c = c') then Some s' else None
  | EmptyString => None
  end.

Definition key_separator (syn : syntax) : ascii :=
  match syn with Json => ":"%char | Toml => "="%char end.

Definition keyword (w : string) (v : pyval) (s : string) : option (pyval * string) :=
  if Str.startswith w s
  then Some (v, String.substring (String.length w)
                  (String.length s - String.length w) s)
  else None.

Fixpoint value (syn : syntax) (fuel : nat) (s : string) : option (pyval * string) :=
  match fuel with
  | O => None
  | S fuel =>
      match skip is_space s with
      | EmptyString => None
      | String c s' as s0 =>
          if bool_decide (c = dq) then
            '(str, rest) ← string_body s'; Some (PyStr str, rest)
          else if bool_decide (c = "["%char) then
            match skip is_space s' with
            | String "]"%char rest => Some (PyList [], rest)
            | _ => '(l, rest) ← elements syn fuel s'; Some (PyList l, rest)
            end
          else if bool_decide (c = "{"%char) then
            match skip is_space s' with
            | String "}"%char rest => Some (PyDict ∅, rest)
            | _ => '(d, rest) ← members syn fuel s' ∅; Some (PyDict d, rest)
            end
          else if bool_decide (c = "t"%char) then keyword "true" (PyBool true) s0
          else if bool_decide (c = "f"%char) then keyword "false" (PyBool false) s0
          else if bool_decide (c = "n"%char) then
            match syn with Json => keyword "null" PyNone s0 | Toml => None end
          else integer s0
      end
  end
with elements (syn : syntax) (fuel : nat) (s : string) : option (list pyval * string) :=
  match fuel with
  | O => None
  | S fuel =>
      '(v, rest) ← value syn fuel s;
      match skip is_space rest with
      | String ","%char rest' =>
          '(vs, rest'') ← elements syn fuel rest'; Some (v :: vs, rest'')
      | String "]"%char rest' => Some ([v], rest')
      | _ => None
      end
  end
with members (syn : syntax) (fuel : nat) (s : string) (acc : gmap string pyval)
    : option (gmap string pyval * string) :=
  match fuel with
  | O => None
  | S fuel =>
      '(k, rest) ← key syn (skip is_space s);
      rest ← expect (key_separator syn) (skip is_space rest);
      '(v, rest) ← value syn fuel rest;
      if match syn with Json => false | Toml => bool_decide (is_Some (acc !! k)) end
      then None
      else
        match skip is_space rest with
        | String ","%char rest' => members syn fuel rest' (<[k := v]> acc)
        | String "}"%char rest' => Some (<[k := v]> acc, rest')
        | _ => None
        end
  end.

Definition json_parse (text : string) : option pyval :=
  '(v, rest) ← value Json (S (String.length text)) text;
  match skip is_space rest with
  | EmptyString => Some v
  | _ => None
  end.

(** The lines [key = value] of a TOML document. *)
Fixpoint toml_lines (fuel : nat) (s : string) (acc : gmap string pyval)
    : option (gmap string pyval) :=
  match fuel with
  | O => None
  | S fuel =>
      match skip is_space s with
      | EmptyString => Some acc
      | s0 =>
          '(k, rest) ← key Toml s0;
          rest ← expect "="%char (skip is_blank rest);
          '(v, rest) ← value Toml (S (String.length rest)) rest;
          if bool_decide (is_Some (acc !! k)) then None
          else
            match skip is_blank rest with
            | EmptyString => Some (<[k := v]> acc)
            | String c rest' =>
                if bool_decide (c = "010"%char)
                then toml_lines fuel rest' (<[k := v]> acc)
                else None
            end
      end
  end.

Definition toml_parse (text : string) : option pyval :=
  PyDict <$> toml_lines (S (String.length text)) text ∅.

#[export] Instance codec : Codec := {
  json_dump indent v := json_text indent 0 v;
  json_load := json_parse;
  tomli_w_dumps := toml_text;
  tomllib_loads := toml_parse
}.

End Ref.

(** ** Sample stores and contents *)

Module Demo.

Definition json_store : Config :=
  constructed "/home/user" "settings" "json" (Some "/etc/app").

Definition toml_store : Config :=
  constructed "/home/user" "settings" "toml" (Some "/etc/app").

Definition limits : pyval :=
  PyDict {[ "depth" := PyInt 3; "strict" := PyBool true ]}.

(** [{"name": "demo", "port": 8080, "tags": ["a", "b"], "limits": {...}}] *)
Definition settings : gmap string pyval :=
  {[ "name" := PyStr "demo"; "port" := PyInt 8080;
     "tags" := PyList [PyStr "a"; PyStr "b"]; "limits" := limits ]}.

(** The same with a key that JSON can hold and TOML cannot. *)
Definition settings_with_none : gmap string pyval :=
  <["timeout" := PyNone]> settings.

(** A filesystem in which the configuration file already exists. *)
Definition with_old_file : filesystem :=
  {[ "/etc/app" := Dir; "/etc/app/settings.json" := File "{}" ]}.

(** The filesystem after a construction on the empty one. *)
Definition fresh (L : Codec) (ft : string) : filesystem :=
  snd (__init__ "/home/user" "settings" ft (Some "/etc/app") ∅).

(** The filesystem after the settings were written to the TOML store, and
    to the JSON store. *)
Definition toml_written : filesystem :=
  snd (add_content (L := Ref.codec) toml_store (PyDict settings) ∅).

Definition json_written : filesystem :=
  snd (add_content (L := Ref.codec) json_store (PyDict settings) ∅).

(** A store constructed with the format in capitals, and a filesystem in
    which its file exists. *)
Definition capitals_store : Config :=
  constructed "/home/user" "settings" "JSON" (Some "/etc/app").

Definition with_capitals_file : filesystem :=
  {[ "/etc/app" := Dir; "/etc/app/settings.JSON" := File "kept" ]}.

(** A JSON file that holds a list, and one that holds no JSON at all. *)
Definition with_list_file : filesystem :=
  {[ "/etc/app" := Dir; "/etc/app/settings.json" := File "[1, 2]" ]}.

Definition with_broken_file : filesystem :=
  {[ "/etc/app" := Dir; "/etc/app/settings.json" := File "{oops" ]}.

(** A filesystem that holds the directory and no file, and what a
    construction leaves of it. *)
Definition with_directory : filesystem := {[ "/etc/app" := Dir ]}.

Definition constructed_in_directory (L : Codec) (ft : string) : filesystem :=
  snd (__init__ "/home/user" "settings" ft (Some "/etc/app") with_directory).

End Demo.

(** * Properties *)

(** ** Strings *)

Lemma startswith_spec p s :
  Str.startswith p s = true ↔ ∃ post, s = p +:+ post.
Proof.
  revert s. induction p as [|a p IH]; intros s; simpl.
  - split; [eauto | done].
  - destruct s as [|b s]; simpl.
    + split; [done | intros [post Hp]; discriminate].
    + rewrite andb_true_iff, bool_decide_eq_true, IH. split.
      * intros [-> [post ->]]. eauto.
      * intros [post Hp]. injection Hp as -> ->. eauto.
Qed.

(** [sub in s] holds exactly when [sub] occurs in [s]. *)
Lemma contains_spec sub s :
  Str.contains sub s = true ↔ ∃ pre post, s = pre +:+ sub +:+ post.
Proof.
  induction s as [|c s IH]; simpl.
  - rewrite orb_false_r, startswith_spec. split.
    + intros [post Hp]. by exists "", post.
    + intros [pre [post Hp]]. destruct pre; [eauto | discriminate].
  - rewrite orb_true_iff, startswith_spec, IH. split.
    + intros [[post Hp] | [pre [post Hp]]].
      * by exists "", post.
      * exists (String c pre), post. simpl. by rewrite Hp.
    + intros [pre [post Hp]]. destruct pre as [|c' pre]; simpl in Hp.
      * left. eauto.
      * right. injection Hp as -> ->. eauto.
Qed.

Lemma append_inj_r (p a b : string) : p +:+ a = p +:+ b → a = b.
Proof. induction p; simpl; intros Hp; [done | injection Hp; auto]. Qed.

(** A string literal of [Ref] reads back as the string it was printed
    from, whatever follows the closing quote. *)
Lemma string_body_escape s rest :
  Ref.string_body (Ref.escape s +:+ String Ref.dq rest) = Some (s, rest).
Proof.
  induction s as [|c s IH]; simpl; [done |].
  destruct (bool_decide (c = Ref.dq)) eqn:Hq; simpl.
  - rewrite Hq. simpl. by rewrite IH.
  - destruct (bool_decide (c = Ref.bs)) eqn:Hb; simpl.
    + rewrite Hq, Hb. simpl. by rewrite IH.
    + rewrite Hq, Hb. by rewrite IH.
Qed.

(** ** Running a computation *)

Ltac io_unfold :=
  unfold mbind, mret, io_bind, io_ret, raise, or_raise,
    Os.path_exists, Os.open_w, Os.open_rb, Os.write, Os.read, Os.remove,
    encode_utf8, decode_utf8 in *.

Ltac io_step :=
  match goal with
  | H : ?m !! ?k = _ |- context [?m !! ?k] => rewrite H
  | |- context [bool_decide ?P] => case_bool_decide
  | |- context [match ?x with _ => _ end] =>
      lazymatch x with
      | context [match _ with _ => _ end] => fail
      | _ => destruct x eqn:?
      end
  end; simpl in *; simplify_map_eq.

Ltac io_run := io_unfold; simpl; repeat io_step.

(** [os.path.exists] answered no although the path is known to hold a node. *)
Ltac absurd_exists :=
  match goal with
  | H : ¬ is_Some (Some _) |- _ => by destruct H
  end.

Section Claims.
Context {L : Codec}.

Lemma bind_never {A B} (m : io A) (k : A → io B) e fs :
  fst (m fs) ≠ inl e →
  (∀ a fs', fst (k a fs') ≠ inl e) →
  fst ((m ≫= k) fs) ≠ inl e.
Proof.
  unfold mbind, io_bind.
  destruct (m fs) as [[e'|a] fs']; simpl; [congruence | auto].
Qed.

(** *** Reading an absent file, removing the file *)

Lemma get_content_absent self fs :
  fs !! file_path self = None →
  get_content self fs = (inr (PyDict ∅), fs).
Proof. intros Hp. unfold get_content. io_run; done. Qed.

Lemma get_content_frame self fs : snd (get_content self fs) = fs.
Proof. unfold get_content. io_run; done. Qed.

(** C6: whenever nothing exists at the path, [get_content] returns the
    empty mapping, raises nothing and leaves the filesystem as it is, so
    the file is not created again; this is what a read returns after
    [destroy_config] has removed the file, and the path is still absent
    afterwards. *)
Theorem get_content_absent_empty self fs :
  (fs !! file_path self = None →
     get_content self fs = (inr (PyDict ∅), fs)) ∧
  (∀ c, fs !! file_path self = Some (File c) →
     ∃ fs', destroy_config self fs = (inr tt, fs') ∧
            fs' !! file_path self = None ∧
            get_content self fs' = (inr (PyDict ∅), fs') ∧
            snd (get_content self fs') !! file_path self = None).
Proof.
  split; [apply get_content_absent |].
  intros c Hc. exists (delete (file_path self) fs).
  assert (delete (file_path self) fs !! file_path self = None) as Hd
    by apply lookup_delete_eq.
  repeat split; [| done | by apply get_content_absent |].
  - unfold destroy_config, Os.remove. by rewrite Hc.
  - by rewrite get_content_frame.
Qed.

(** C9: on a store whose path is free or holds a regular file,
    [destroy_config] raises [FileNotFoundError] exactly when the file does
    not exist, and otherwise succeeds: the file is gone and every other
    path is left as it was. *)
Theorem destroy_config_spec self fs :
  path_usable self fs →
  (fst (destroy_config self fs) = inl FileNotFoundError
     ↔ fs !! file_path self = None) ∧
  (fs !! file_path self ≠ None →
     destroy_config self fs = (inr tt, delete (file_path self) fs) ∧
     snd (destroy_config self fs) !! file_path self = None ∧
     ∀ p, p ≠ file_path self →
          snd (destroy_config self fs) !! p = fs !! p).
Proof.
  unfold path_usable, destroy_config, Os.remove. intros Hu.
  destruct (fs !! file_path self) as [[c|]|] eqn:Hp; simpl.
  - split; [done |]. intros _. split; [done |]. split.
    + apply lookup_delete_eq.
    + intros p Hne. by apply lookup_delete_ne.
  - done.
  - split; [done |]. by intros [].
Qed.

(** When the path names a directory, [os.remove] raises its own error. *)
Lemma destroy_config_directory self fs :
  fs !! file_path self = Some Dir →
  destroy_config self fs = (inl IsADirectoryError, fs).
Proof. unfold destroy_config, Os.remove. by intros ->. Qed.

(** *** The exceptions a method can raise *)

Lemma add_content_ValueError self v fs msg :
  fst (add_content self v fs) = inl (ValueError msg) →
  ∃ text, tomli_w_dumps v = Some text ∧ tomllib_loads text = None ∧
          msg = "The following is not valid TOML code:" +:+ Str.nl +:+ text.
Proof.
  unfold add_content, InvalidSerialization. io_run; try done.
  all: intros [= <-]; eauto.
Qed.

Lemma get_content_not_ValueError self fs msg :
  fst (get_content self fs) ≠ inl (ValueError msg).
Proof. unfold get_content. io_run; done. Qed.

Lemma mkdir_each_lookup ps fs p n :
  fs !! p = Some n → snd (Os.mkdir_each ps fs) !! p = Some n.
Proof.
  revert fs. induction ps as [|q ps IH]; intros fs Hp; simpl; [done |].
  destruct (fs !! q) as [[c|]|] eqn:Hq.
  - by destruct ps.
  - destruct ps; [done | by apply IH].
  - apply IH. rewrite lookup_insert_ne; [done | congruence].
Qed.

Lemma mkdir_each_not_ValueError ps fs msg :
  fst (Os.mkdir_each ps fs) ≠ inl (ValueError msg).
Proof.
  revert fs. induction ps as [|q ps IH]; intros fs; simpl; [done |].
  destruct (fs !! q) as [[c|]|]; [by destruct ps | | apply IH].
  destruct ps; [done | apply IH].
Qed.

Lemma InvalidFormat_not_InvalidSerialization text :
  InvalidFormat ≠ InvalidSerialization text.
Proof. by cbv. Qed.

Lemma InvalidArgument_not_InvalidSerialization text :
  InvalidArgument ≠ InvalidSerialization text.
Proof. by cbv. Qed.

Lemma add_content_not_InvalidFormat self v fs :
  fst (add_content self v fs) ≠ inl InvalidFormat.
Proof.
  intros Hv. apply add_content_ValueError in Hv as (text & _ & _ & Hm).
  by cbv in Hm.
Qed.

Lemma add_content_not_InvalidArgument self v fs :
  fst (add_content self v fs) ≠ inl InvalidArgument.
Proof.
  intros Hv. apply add_content_ValueError in Hv as (text & _ & _ & Hm).
  by cbv in Hm.
Qed.

(** *** Argument checks *)

(** C7: [update_content] on an argument that is not a dict raises the
    [ValueError] of line 131 and the filesystem is exactly as before, so
    the file keeps its content; on a dict that error is never raised. *)
Theorem update_content_invalid_argument self v fs :
  (isinstance_dict v = false →
     update_content self v fs = (inl InvalidArgument, fs)) ∧
  (isinstance_dict v = true →
     fst (update_content self v fs) ≠ inl InvalidArgument).
Proof.
  split; intros Hv; unfold update_content; rewrite Hv; simpl; [done |].
  unfold mbind, io_bind.
  pose proof (get_content_not_ValueError self fs) as Hg.
  destruct (get_content self fs) as [[e|c] fs1]; simpl in *.
  { intros [= ->]. by eapply Hg. }
  unfold Os.open_w. destruct (fs1 !! file_path self) as [[?|]|]; simpl;
    try done.
  all: repeat case_bool_decide; simpl; try done.
  all: destruct c, v; simpl; try done.
  all: try (unfold Os.write; simplify_map_eq; done).
  all: apply add_content_not_InvalidArgument.
Qed.

(** *** The methods, step by step *)

Lemma add_content_json_run self v fs :
  file_type self = ".json" → path_usable self fs →
  add_content self v fs
  = (inr tt, <[file_path self := File (json_dump None v)]> fs).
Proof.
  unfold path_usable, add_content. intros -> Hp. simpl.
  io_run; try done; by rewrite insert_insert_eq.
Qed.

Lemma add_content_toml_run self v fs :
  file_type self = ".toml" → path_usable self fs →
  add_content self v fs
  = match tomli_w_dumps v with
    | None => (inl TypeError, <[file_path self := File ""]> fs)
    | Some text =>
        match tomllib_loads text with
        | None => (inl (InvalidSerialization text),
                   <[file_path self := File ""]> fs)
        | Some _ => (inr tt, <[file_path self := File text]> fs)
        end
    end.
Proof.
  unfold path_usable, add_content. intros -> Hp. simpl.
  io_run; try done; by rewrite insert_insert_eq.
Qed.

Lemma get_content_json_run self fs c :
  file_type self = ".json" → fs !! file_path self = Some (File c) →
  get_content self fs
  = (match json_load c with
     | Some v => inr v
     | None => inl JSONDecodeError
     end, fs).
Proof.
  unfold get_content. intros -> Hc. simpl. io_run; try done.
  all: absurd_exists.
Qed.

Lemma get_content_toml_run self fs c :
  file_type self = ".toml" → fs !! file_path self = Some (File c) →
  get_content self fs
  = (match tomllib_loads c with
     | Some v => inr v
     | None => inl TOMLDecodeError
     end, fs).
Proof.
  unfold get_content. intros -> Hc. simpl. io_run; try done.
  all: absurd_exists.
Qed.

Lemma get_content_usable self fs v :
  fst (get_content self fs) = inr v → path_usable self fs.
Proof.
  unfold path_usable, get_content. intros Hg Hd. revert Hg.
  io_run; try done. all: absurd_exists.
Qed.

Lemma update_content_json_run self fs c n :
  file_type self = ".json" →
  fst (get_content self fs) = inr (PyDict c) →
  update_content self (PyDict n) fs
  = (inr tt,
     <[file_path self := File (json_dump (Some 2%nat) (PyDict (n ∪ c)))]> fs).
Proof.
  intros Hft Hg. pose proof (get_content_usable _ _ _ Hg) as Hu.
  pose proof (get_content_frame self fs) as Hf.
  unfold update_content. simpl. unfold mbind at 1. unfold io_bind at 1.
  destruct (get_content self fs) as [r fs1]. simpl in *. subst r fs1.
  unfold path_usable in Hu. rewrite Hft. simpl.
  io_run; try done; by rewrite insert_insert_eq.
Qed.

Lemma update_content_toml_run self fs c n :
  file_type self = ".toml" →
  fst (get_content self fs) = inr (PyDict c) →
  update_content self (PyDict n) fs
  = add_content self (PyDict (n ∪ c)) (<[file_path self := File ""]> fs).
Proof.
  intros Hft Hg. pose proof (get_content_usable _ _ _ Hg) as Hu.
  pose proof (get_content_frame self fs) as Hf.
  unfold update_content. simpl. unfold mbind at 1. unfold io_bind at 1.
  destruct (get_content self fs) as [r fs1]. simpl in *. subst r fs1.
  unfold path_usable in Hu. rewrite Hft. simpl.
  unfold mbind at 1. unfold io_bind at 1. unfold Os.open_w.
  destruct (fs !! file_path self) as [[?|]|]; done.
Qed.

(** *** Writing and reading back *)

(** C1: on a JSON store and on a TOML store, writing a mapping that the
    format represents and then reading gives the mapping back. *)
Theorem add_get_roundtrip self fs d :
  representable (file_type self) None (PyDict d) →
  path_usable self fs →
  ∃ fs', add_content self (PyDict d) fs = (inr tt, fs') ∧
         get_content self fs' = (inr (PyDict d), fs').
Proof.
  intros [[Hft Hr] | [Hft (text & Hw & Hr)]] Hu.
  - rewrite add_content_json_run by done. eexists. split; [done |].
    erewrite get_content_json_run; [| done | apply lookup_insert_eq].
    by rewrite Hr.
  - rewrite add_content_toml_run, Hw, Hr by done. eexists. split; [done |].
    erewrite get_content_toml_run; [| done | apply lookup_insert_eq].
    by rewrite Hr.
Qed.

(** *** Merging *)

Lemma update_get self fs c n :
  representable (file_type self) (Some 2%nat) (PyDict (n ∪ c)) →
  fst (get_content self fs) = inr (PyDict c) →
  ∃ fs', update_content self (PyDict n) fs = (inr tt, fs') ∧
         get_content self fs' = (inr (PyDict (n ∪ c)), fs').
Proof.
  intros [[Hft Hr] | [Hft (text & Hw & Hr)]] Hg.
  - erewrite update_content_json_run by done. eexists. split; [done |].
    erewrite get_content_json_run; [| done | apply lookup_insert_eq].
    by rewrite Hr.
  - erewrite update_content_toml_run by done.
    rewrite add_content_toml_run, Hw, Hr;
      [| done | unfold path_usable; by rewrite lookup_insert_eq].
    rewrite insert_insert_eq. eexists. split; [done |].
    erewrite get_content_toml_run; [| done | apply lookup_insert_eq].
    by rewrite Hr.
Qed.

(** C2: [update_content] stores the key-wise merge of the current content
    [c] and the new values [n]: reading afterwards gives a mapping that
    has [n]'s value at every key of [n], a nested mapping included, and
    [c]'s value at every other key.  Hence on a store that reads as empty,
    merging [{a: 1}] and then [{b: 2}] gives [{a: 1, b: 2}], and merging
    [{a: 1}] and then [{a: 2}] gives [{a: 2}]. *)
Theorem update_content_merge self fs :
  (∀ c n,
     representable (file_type self) (Some 2%nat) (PyDict (n ∪ c)) →
     fst (get_content self fs) = inr (PyDict c) →
     ∃ fs' m, update_content self (PyDict n) fs = (inr tt, fs') ∧
              get_content self fs' = (inr (PyDict m), fs') ∧
              ∀ k, m !! k = match n !! k with
                            | Some v => Some v
                            | None => c !! k
                            end) ∧
  (representable (file_type self) (Some 2%nat) (PyDict {["a" := PyInt 1]}) →
   representable (file_type self) (Some 2%nat)
     (PyDict {["a" := PyInt 1; "b" := PyInt 2]}) →
   fst (get_content self fs) = inr (PyDict ∅) →
   ∃ fs1 fs2,
     update_content self (PyDict {["a" := PyInt 1]}) fs = (inr tt, fs1) ∧
     update_content self (PyDict {["b" := PyInt 2]}) fs1 = (inr tt, fs2) ∧
     fst (get_content self fs2)
       = inr (PyDict {["a" := PyInt 1; "b" := PyInt 2]})) ∧
  (representable (file_type self) (Some 2%nat) (PyDict {["a" := PyInt 1]}) →
   representable (file_type self) (Some 2%nat) (PyDict {["a" := PyInt 2]}) →
   fst (get_content self fs) = inr (PyDict ∅) →
   ∃ fs1 fs2,
     update_content self (PyDict {["a" := PyInt 1]}) fs = (inr tt, fs1) ∧
     update_content self (PyDict {["a" := PyInt 2]}) fs1 = (inr tt, fs2) ∧
     fst (get_content self fs2) = inr (PyDict {["a" := PyInt 2]})).
Proof.
  split; [| split].
  - intros c n Hr Hg.
    destruct (update_get self fs c n Hr Hg) as (fs' & Hu & Hg').
    exists fs', (n ∪ c). repeat split; [done.. |].
    intros k. rewrite lookup_union. by destruct (n !! k), (c !! k).
  - intros Ha Hab Hg.
    destruct (update_get self fs ∅ {["a" := PyInt 1]}) as (fs1 & Hu1 & Hg1);
      [by rewrite (right_id_L ∅ (∪)) | done |].
    rewrite (right_id_L ∅ (∪)) in Hg1.
    assert ({["b" := PyInt 2]} ∪ {["a" := PyInt 1]}
            = ({["a" := PyInt 1; "b" := PyInt 2]} : gmap string pyval)) as Hm.
    { apply map_eq. intros k. rewrite lookup_union.
      destruct (decide (k = "a")) as [->|]; [done |].
      destruct (decide (k = "b")) as [->|]; [done |].
      by simplify_map_eq. }
    destruct (update_get self fs1 {["a" := PyInt 1]} {["b" := PyInt 2]})
      as (fs2 & Hu2 & Hg2); [by rewrite Hm | by rewrite Hg1 |].
    exists fs1, fs2. by rewrite Hu1, Hu2, Hg2, Hm.
  - intros Ha Ha2 Hg.
    destruct (update_get self fs ∅ {["a" := PyInt 1]}) as (fs1 & Hu1 & Hg1);
      [by rewrite (right_id_L ∅ (∪)) | done |].
    rewrite (right_id_L ∅ (∪)) in Hg1.
    assert ({["a" := PyInt 2]} ∪ {["a" := PyInt 1]}
            = ({["a" := PyInt 2]} : gmap string pyval)) as Hm.
    { apply map_eq. intros k. rewrite lookup_union.
      destruct (decide (k = "a")) as [->|]; [done |].
      by simplify_map_eq. }
    destruct (update_get self fs1 {["a" := PyInt 1]} {["a" := PyInt 2]})
      as (fs2 & Hu2 & Hg2); [by rewrite Hm | by rewrite Hg1 |].
    exists fs1, fs2. by rewrite Hu1, Hu2, Hg2, Hm.
Qed.

(** *** The TOML check *)

(** What the check of lines 87 to 91 catches: on a TOML store
    [add_content] raises the [ValueError] of line 91, with the serialised
    text in its message, exactly when the writer returned that text and
    parsing it raised [TOMLDecodeError]; the text is then not written.  The
    call of the writer, line 85, is outside the [try]: when the writer
    raises, its [TypeError] leaves [add_content] as it is. *)
Lemma add_content_toml_check self m fs :
  file_type self = ".toml" →
  path_usable self fs →
  (∀ text,
     fst (add_content self m fs) = inl (InvalidSerialization text)
     ↔ tomli_w_dumps m = Some text ∧ tomllib_loads text = None) ∧
  (∀ text, fst (add_content self m fs) = inl (InvalidSerialization text) →
     snd (add_content self m fs) = <[file_path self := File ""]> fs) ∧
  (tomli_w_dumps m = None →
     add_content self m fs
     = (inl TypeError, <[file_path self := File ""]> fs)).
Proof.
  intros Hft Hu. rewrite add_content_toml_run by done.
  destruct (tomli_w_dumps m) as [t|] eqn:Hw.
  - destruct (tomllib_loads t) as [v|] eqn:Hr; simpl.
    + split; [| split]; [| done..].
      intros text. split; [done |]. intros [[= ->] ?]. congruence.
    + split; [| split]; [| done..].
      intros text. split.
      * intros [= Ht]. apply append_inj_r in Ht. by subst.
      * by intros [[= ->] _].
  - simpl. split; [| split]; [| done..].
    intros text. split; [done | by intros [? _]].
Qed.

(** C10: on a TOML store whose content reads as the mapping [c],
    [update_content] with new values [n] for which writing the merged
    mapping fails, in the writer or in the check of its text, raises and
    leaves the file empty. *)
Theorem update_content_toml_truncates self fs c n :
  file_type self = ".toml" →
  fst (get_content self fs) = inr (PyDict c) →
  toml_write_fails (PyDict (n ∪ c)) →
  ∃ e, update_content self (PyDict n) fs
       = (inl e, <[file_path self := File ""]> fs).
Proof.
  intros Hft Hg Hfail. erewrite update_content_toml_run by done.
  rewrite add_content_toml_run;
    [| done | unfold path_usable; by rewrite lookup_insert_eq].
  rewrite insert_insert_eq.
  destruct Hfail as [-> | (text & -> & ->)]; eauto.
Qed.

(** *** Construction *)

(** [__init__], step by step. *)
Lemma init_run cwd name ft dir fs :
  __init__ cwd name ft dir fs =
  if negb (format_accepted ft) then (inl InvalidFormat, fs)
  else
    match (if bool_decide (is_Some (fs !! or_getcwd dir cwd))
           then (inr tt, fs) else Os.makedirs (or_getcwd dir cwd) fs) with
    | (inl e, fs1) => (inl e, fs1)
    | (inr _, fs1) =>
        if bool_decide (is_Some (fs1 !! derived_path cwd name ft dir))
        then (inr (constructed cwd name ft dir), fs1)
        else
          match add_content (constructed cwd name ft dir) (PyDict ∅) fs1 with
          | (inl e, fs2) => (inl e, fs2)
          | (inr _, fs2) => (inr (constructed cwd name ft dir), fs2)
          end
    end.
Proof.
  unfold __init__, format_accepted, constructed, derived_path.
  destruct (negb (existsb _ ACCEPTED_CONFIG_TYPES)); [done |].
  cbn zeta. unfold mbind, io_bind, Os.path_exists.
  destruct (bool_decide (is_Some (fs !! or_getcwd dir cwd))); simpl.
  - by destruct (bool_decide _).
  - destruct (Os.makedirs _ fs) as [[e|[]] fs1]; [done |].
    by destruct (bool_decide _).
Qed.

Lemma format_accepted_spec ft :
  format_accepted ft = true
  ↔ ∃ t pre post, t ∈ ACCEPTED_CONFIG_TYPES ∧
      Str.lower ft = pre +:+ Str.lower t +:+ post.
Proof.
  unfold format_accepted. rewrite existsb_exists. split.
  - intros (t & Ht & Hc). apply contains_spec in Hc as (pre & post & Hc).
    exists t, pre, post. by rewrite <- list_elem_of_In in Ht.
  - intros (t & pre & post & Ht & Hc). exists t.
    rewrite <- list_elem_of_In. split; [done |].
    apply contains_spec. eauto.
Qed.

(** C8: construction raises the [ValueError] of line 50 exactly when the
    lower-cased format contains neither [json] nor [toml], in which case
    nothing has been done to the filesystem; the format [xml] is
    rejected. *)
Theorem init_invalid_format cwd name ft dir fs :
  (fst (__init__ cwd name ft dir fs) = inl InvalidFormat
     ↔ ¬ ∃ t pre post, t ∈ ACCEPTED_CONFIG_TYPES ∧
           Str.lower ft = pre +:+ Str.lower t +:+ post) ∧
  (fst (__init__ cwd name ft dir fs) = inl InvalidFormat →
     snd (__init__ cwd name ft dir fs) = fs) ∧
  __init__ cwd name "xml" dir fs = (inl InvalidFormat, fs).
Proof.
  rewrite <- format_accepted_spec, !init_run.
  destruct (format_accepted ft) eqn:Hf; simpl; [| done].
  assert (fst (match (if bool_decide (is_Some (fs !! or_getcwd dir cwd))
                      then (inr tt, fs)
                      else Os.makedirs (or_getcwd dir cwd) fs) with
    | (inl e, fs1) => (inl e, fs1)
    | (inr _, fs1) =>
        if bool_decide (is_Some (fs1 !! derived_path cwd name ft dir))
        then (inr (constructed cwd name ft dir), fs1)
        else
          match add_content (constructed cwd name ft dir) (PyDict ∅) fs1 with
          | (inl e, fs2) => (inl e, fs2)
          | (inr _, fs2) => (inr (constructed cwd name ft dir), fs2)
          end
    end) ≠ inl InvalidFormat) as Hrun.
  { pose proof (mkdir_each_not_ValueError
                  (Os.segments "" (or_getcwd dir cwd)) fs) as Hm.
    unfold Os.makedirs.
    destruct (bool_decide (is_Some (fs !! _)));
      [| destruct (Os.mkdir_each _ fs) as [[e|[]] fs1]; simpl in *;
         [intros [= ->]; by eapply Hm |]].
    all: case_bool_decide; [done |].
    all: match goal with
         | |- context [add_content ?s ?v ?f] =>
             pose proof (add_content_not_InvalidFormat s v f);
             destruct (add_content s v f) as [[e|[]] ?]; simpl in *;
             congruence
         end. }
  split; [| split; [| done]].
  - split; [| done]. intros Hr. by destruct Hrun.
  - intros Hr. by destruct Hrun.
Qed.

(** *** Construction and the file *)

(** C5: when a file is at the derived path, construction leaves that
    file with the content it had, whatever the format string; and when
    the directory is there as well, construction changes nothing in the
    filesystem. *)
Theorem init_keeps_existing_file cwd name ft dir fs c :
  fs !! derived_path cwd name ft dir = Some (File c) →
  snd (__init__ cwd name ft dir fs) !! derived_path cwd name ft dir
    = Some (File c) ∧
  (is_Some (fs !! or_getcwd dir cwd) →
     snd (__init__ cwd name ft dir fs) = fs).
Proof.
  intros Hc. rewrite init_run.
  destruct (negb (format_accepted ft)); simpl; [done |].
  split.
  - assert (snd (if bool_decide (is_Some (fs !! or_getcwd dir cwd))
                 then (inr tt, fs)
                 else Os.makedirs (or_getcwd dir cwd) fs)
            !! derived_path cwd name ft dir = Some (File c)) as Hm.
    { destruct (bool_decide _); [done |]. by apply mkdir_each_lookup. }
    destruct (if bool_decide _ then _ else _) as [[e|[]] fs1];
      simpl in *; [done |].
    rewrite Hm, bool_decide_eq_true_2 by eauto. done.
  - intros Hd. rewrite bool_decide_eq_true_2 by done.
    rewrite Hc, bool_decide_eq_true_2 by eauto. done.
Qed.

(** Where construction normalises the format to [.json] or [.toml], a
    construction that succeeds leaves something at the derived path. *)
Lemma init_creates_file cwd name ft dir fs self fs' :
  _check_file_type ft = ".json" ∨ _check_file_type ft = ".toml" →
  __init__ cwd name ft dir fs = (inr self, fs') →
  self = constructed cwd name ft dir ∧
  is_Some (fs' !! file_path self).
Proof.
  intros Hft. rewrite init_run.
  destruct (negb (format_accepted ft)); simpl; [done |].
  destruct (if bool_decide _ then _ else _) as [[e|[]] fs1]; [done |].
  case_bool_decide as Hp; [by intros [= <- <-] |].
  destruct (add_content _ _ fs1) as [[e|[]] fs2] eqn:Ha; [done |].
  intros [= <- <-]. split; [done |].
  revert Ha. unfold add_content. simpl.
  destruct Hft as [-> | ->]; simpl; io_run; intros; simplify_map_eq; eauto.
Qed.

Lemma check_file_type_accepted ft :
  _check_file_type ft = ".json" ∨ _check_file_type ft = ".toml" →
  format_accepted ft = true.
Proof.
  unfold _check_file_type.
  destruct (Str.contains "." ft); intros [Hft | Hft];
    cbv [String.append negb] in Hft; simplify_eq; reflexivity.
Qed.

(** With the directory in place and nothing at the derived path, a
    construction with one of the formats [json], [.json], [toml], [.toml]
    writes the empty mapping there. *)
Lemma init_writes_empty_mapping cwd name ft dir fs :
  is_Some (fs !! or_getcwd dir cwd) →
  fs !! derived_path cwd name ft dir = None →
  (_check_file_type ft = ".json" →
     __init__ cwd name ft dir fs
     = (inr (constructed cwd name ft dir),
        <[derived_path cwd name ft dir := File (json_dump None (PyDict ∅))]> fs)) ∧
  (_check_file_type ft = ".toml" →
     ∀ text, tomli_w_dumps (PyDict ∅) = Some text →
             is_Some (tomllib_loads text) →
     __init__ cwd name ft dir fs
     = (inr (constructed cwd name ft dir),
        <[derived_path cwd name ft dir := File text]> fs)).
Proof.
  intros Hd Hp.
  assert (path_usable (constructed cwd name ft dir) fs) as Hu
    by (unfold path_usable; simpl; by rewrite Hp).
  split.
  - intros Hft. rewrite init_run, check_file_type_accepted by auto. simpl.
    rewrite bool_decide_eq_true_2 by done.
    rewrite Hp, bool_decide_eq_false_2 by (by intros []).
    by rewrite add_content_json_run.
  - intros Hft text Hw [v Hr].
    rewrite init_run, check_file_type_accepted by auto. simpl.
    rewrite bool_decide_eq_true_2 by done.
    rewrite Hp, bool_decide_eq_false_2 by (by intros []).
    by rewrite add_content_toml_run, Hw, Hr.
Qed.

End Claims.

(** C4, at the format string "JSON": line 49 accepts it, [_check_file_type]
    turns it into [.JSON], which is neither of the two strings
    [add_content] writes for, so construction succeeds and nothing exists
    at the derived path. *)
Theorem init_uppercase_format_no_file (L : Codec) :
  ∃ self fs',
    __init__ "/home/user" "settings" "JSON" (Some "/etc/app") ∅ = (inr self, fs') ∧
    file_type self = ".JSON" ∧
    file_path self = "/etc/app/settings.JSON" ∧
    file_path self = derived_path "/home/user" "settings" "JSON" (Some "/etc/app") ∧
    fs' !! file_path self = None ∧
    fs' = {[ "/etc" := Dir; "/etc/app" := Dir ]}.
Proof.
  eexists _, _. split; [vm_compute; reflexivity |].
  repeat split; vm_compute; reflexivity.
Qed.

(** * The properties on concrete stores *)

Section Examples.
Import Demo.
#[local] Existing Instance Ref.codec.

Lemma add_get_roundtrip_witness :
  (representable (file_type json_store) None (PyDict settings_with_none) ∧
   ∃ fs', add_content json_store (PyDict settings_with_none) ∅ = (inr tt, fs') ∧
          get_content json_store fs' = (inr (PyDict settings_with_none), fs')) ∧
  (representable (file_type toml_store) None (PyDict settings) ∧
   ∃ fs', add_content toml_store (PyDict settings) ∅ = (inr tt, fs') ∧
          get_content toml_store fs' = (inr (PyDict settings), fs')).
Proof.
  assert (representable (file_type json_store) None (PyDict settings_with_none))
    as Hj by (left; split; vm_compute; reflexivity).
  assert (representable (file_type toml_store) None (PyDict settings))
    as Ht by (right; split; [reflexivity |]; eexists;
              (split; [vm_compute; reflexivity |]); vm_compute; reflexivity).
  split; (split; [done |]).
  - apply (add_get_roundtrip json_store ∅ settings_with_none Hj). by vm_compute.
  - apply (add_get_roundtrip toml_store ∅ settings Ht). by vm_compute.
Defined.

Lemma update_content_merge_witness :
  (* the two pairs of merges, on a freshly constructed TOML store *)
  (fst (get_content toml_store (fresh Ref.codec "toml")) = inr (PyDict ∅) ∧
   (∃ fs1 fs2,
      update_content toml_store (PyDict {["a" := PyInt 1]})
        (fresh Ref.codec "toml") = (inr tt, fs1) ∧
      update_content toml_store (PyDict {["b" := PyInt 2]}) fs1 = (inr tt, fs2) ∧
      fst (get_content toml_store fs2)
        = inr (PyDict {["a" := PyInt 1; "b" := PyInt 2]})) ∧
   (∃ fs1 fs2,
      update_content toml_store (PyDict {["a" := PyInt 1]})
        (fresh Ref.codec "toml") = (inr tt, fs1) ∧
      update_content toml_store (PyDict {["a" := PyInt 2]}) fs1 = (inr tt, fs2) ∧
      fst (get_content toml_store fs2) = inr (PyDict {["a" := PyInt 2]}))) ∧
  (* a nested mapping is replaced, not merged, on a JSON store *)
  (fst (get_content json_store json_written) = inr (PyDict settings) ∧
   ∃ fs' m,
     update_content json_store
       (PyDict {["limits" := PyDict {["depth" := PyInt 9]}]})
       json_written = (inr tt, fs') ∧
     get_content json_store fs' = (inr (PyDict m), fs') ∧
     m !! "limits" = Some (PyDict {["depth" := PyInt 9]}) ∧
     m !! "name" = Some (PyStr "demo")).
Proof.
  assert (∀ m, (∃ text, tomli_w_dumps m = Some text ∧
                        tomllib_loads text = Some m) →
               representable (file_type toml_store) (Some 2%nat) m) as Ht
    by (intros m Hm; right; split; [reflexivity | exact Hm]).
  assert (fst (get_content toml_store (fresh Ref.codec "toml"))
          = inr (PyDict ∅)) as Hg by (vm_compute; reflexivity).
  destruct (update_content_merge toml_store (fresh Ref.codec "toml"))
    as (_ & Hab & Haa).
  split; [split; [exact Hg | split] |].
  - apply Hab; [apply Ht | apply Ht | exact Hg];
      eexists; (split; [vm_compute; reflexivity |]); vm_compute; reflexivity.
  - apply Haa; [apply Ht | apply Ht | exact Hg];
      eexists; (split; [vm_compute; reflexivity |]); vm_compute; reflexivity.
  - assert (fst (get_content json_store json_written) = inr (PyDict settings))
      as Hs by (vm_compute; reflexivity).
    split; [exact Hs |].
    destruct (update_content_merge json_store json_written) as (Hmerge & _ & _).
    destruct (Hmerge settings {["limits" := PyDict {["depth" := PyInt 9]}]})
      as (fs' & m & Hu & Hr & Hk);
      [left; split; vm_compute; reflexivity | exact Hs |].
    exists fs', m. split; [exact Hu | split; [exact Hr |]].
    split; [apply (Hk "limits") | apply (Hk "name")].
Defined.

(** C3, on a mapping that holds [None], a value TOML has no type for and
    [tomli_w] rejects: [add_content] on a TOML store raises the writer's
    [TypeError] and not the [ValueError] of line 91, which is what the
    method's docstring announces for contents that are not valid TOML; the
    file, which held a mapping, is left empty. *)
Theorem add_content_toml_none_raises_TypeError :
  file_type toml_store = ".toml" ∧
  path_usable toml_store toml_written ∧
  fst (get_content toml_store toml_written) = inr (PyDict settings) ∧
  toml_write_fails (PyDict settings_with_none) ∧
  add_content toml_store (PyDict settings_with_none) toml_written
    = (inl TypeError, {[ file_path toml_store := File "" ]}) ∧
  ¬ ∃ text, fst (add_content toml_store (PyDict settings_with_none) toml_written)
            = inl (InvalidSerialization text).
Proof.
  assert (add_content toml_store (PyDict settings_with_none) toml_written
          = (inl TypeError, {[ file_path toml_store := File "" ]})) as Hrun
    by (vm_compute; reflexivity).
  split; [reflexivity |]. split; [by vm_compute |].
  split; [vm_compute; reflexivity |].
  split; [left; vm_compute; reflexivity |].
  split; [exact Hrun |].
  intros [text Ht]. rewrite Hrun in Ht. discriminate Ht.
Qed.

Lemma update_content_toml_truncates_witness :
  file_type toml_store = ".toml" ∧
  fst (get_content toml_store toml_written) = inr (PyDict settings) ∧
  toml_write_fails (PyDict ({["timeout" := PyNone]} ∪ settings)) ∧
  ∃ e, update_content toml_store (PyDict {["timeout" := PyNone]}) toml_written
       = (inl e, <[file_path toml_store := File ""]> toml_written).
Proof.
  assert (fst (get_content toml_store toml_written) = inr (PyDict settings))
    as Hg by (vm_compute; reflexivity).
  assert (toml_write_fails (PyDict ({["timeout" := PyNone]} ∪ settings)))
    as Hf by (left; vm_compute; reflexivity).
  split; [reflexivity |]. split; [exact Hg |]. split; [exact Hf |].
  exact (update_content_toml_truncates toml_store toml_written settings
           {["timeout" := PyNone]} eq_refl Hg Hf).
Defined.

Lemma init_keeps_existing_file_witness :
  with_old_file !! derived_path "/home/user" "settings" "json" (Some "/etc/app")
    = Some (File "{}") ∧
  snd (__init__ "/home/user" "settings" "json" (Some "/etc/app") with_old_file)
    !! derived_path "/home/user" "settings" "json" (Some "/etc/app")
    = Some (File "{}") ∧
  snd (__init__ "/home/user" "settings" "json" (Some "/etc/app") with_old_file)
    = with_old_file.
Proof.
  assert (with_old_file
            !! derived_path "/home/user" "settings" "json" (Some "/etc/app")
          = Some (File "{}")) as Hc by (vm_compute; reflexivity).
  destruct (init_keeps_existing_file "/home/user" "settings" "json"
              (Some "/etc/app") with_old_file "{}" Hc) as [Hkeep Hsame].
  split; [exact Hc |]. split; [exact Hkeep |].
  apply Hsame. vm_compute. eauto.
Defined.

Lemma get_content_absent_empty_witness :
  get_content json_store ∅ = (inr (PyDict ∅), ∅) ∧
  ∃ fs', destroy_config json_store with_old_file = (inr tt, fs') ∧
         fs' !! file_path json_store = None ∧
         get_content json_store fs' = (inr (PyDict ∅), fs') ∧
         snd (get_content json_store fs') !! file_path json_store = None.
Proof.
  destruct (get_content_absent_empty json_store ∅) as [Habsent _].
  destruct (get_content_absent_empty json_store with_old_file) as [_ Hgone].
  split; [apply Habsent; vm_compute; reflexivity |].
  apply (Hgone "{}"). vm_compute. reflexivity.
Defined.

Lemma destroy_config_spec_witness :
  (path_usable json_store ∅ ∧
   fst (destroy_config json_store ∅) = inl FileNotFoundError) ∧
  (path_usable json_store with_old_file ∧
   destroy_config json_store with_old_file = (inr tt, {[ "/etc/app" := Dir ]})).
Proof.
  assert (path_usable json_store ∅) as Hu0 by (by vm_compute).
  assert (path_usable json_store with_old_file) as Hu1 by (by vm_compute).
  destruct (destroy_config_spec json_store ∅ Hu0) as [Hnf _].
  destruct (destroy_config_spec json_store with_old_file Hu1) as [_ Hrm].
  split; (split; [done |]).
  - apply Hnf. vm_compute. reflexivity.
  - destruct Hrm as (Hrun & _); [by vm_compute |].
    rewrite Hrun. vm_compute. reflexivity.
Defined.

Lemma update_content_invalid_argument_witness :
  update_content json_store (PyList [PyInt 1; PyInt 2; PyInt 3]) with_old_file
    = (inl InvalidArgument, with_old_file) ∧
  fst (update_content json_store (PyDict {["a" := PyInt 1]}) with_old_file)
    ≠ inl InvalidArgument.
Proof.
  split.
  - apply (update_content_invalid_argument json_store
             (PyList [PyInt 1; PyInt 2; PyInt 3]) with_old_file). reflexivity.
  - apply (update_content_invalid_argument json_store
             (PyDict {["a" := PyInt 1]}) with_old_file). reflexivity.
Defined.

Lemma init_invalid_format_witness :
  __init__ "/home/user" "settings" "xml" (Some "/etc/app") ∅
    = (inl InvalidFormat, ∅) ∧
  fst (__init__ "/home/user" "settings" "Toml" None ∅) ≠ inl InvalidFormat.
Proof.
  split.
  - apply (init_invalid_format "/home/user" "settings" "xml" (Some "/etc/app") ∅).
  - intros Hr.
    destruct (init_invalid_format "/home/user" "settings" "Toml" None ∅)
      as [[Hnone _] _].
    apply (Hnone Hr). exists "toml", "", "". split; [| reflexivity].
    vm_compute. apply list_elem_of_In. right. left. reflexivity.
Defined.

End Examples.

(** * More of the class *)

(** ** Strings again *)

Lemma length_append (a b : string) :
  String.length (a +:+ b) = (String.length a + String.length b)%nat.
Proof. induction a as [|c a IH]; [done | exact (f_equal S IH)]. Qed.

Lemma length_lower s : String.length (Str.lower s) = String.length s.
Proof. induction s as [|c s IH]; simpl; [done | by rewrite IH]. Qed.

Lemma append_empty_r (s : string) : s +:+ "" = s.
Proof. induction s as [|c s IH]; [done | exact (f_equal (String c) IH)]. Qed.

Lemma append_assoc (a b c : string) : (a +:+ b) +:+ c = a +:+ (b +:+ c).
Proof. induction a as [|x a IH]; [done | exact (f_equal (String x) IH)]. Qed.

Lemma contains_length sub s :
  Str.contains sub s = true → (String.length sub ≤ String.length s)%nat.
Proof.
  intros (pre & post & ->)%contains_spec. rewrite !length_append. lia.
Qed.

Section Behaviour.
Context {L : Codec}.

(** ** The format string *)

(** X1: [_check_file_type] returns a string with a dot in it, and applying
    it to its own result changes nothing. *)
Theorem check_file_type_idempotent ft :
  Str.contains "." (_check_file_type ft) = true ∧
  _check_file_type (_check_file_type ft) = _check_file_type ft.
Proof.
  assert (Str.contains "." (_check_file_type ft) = true) as Hdot.
  { unfold _check_file_type.
    by destruct (Str.contains "." ft) eqn:Hc. }
  split; [done |].
  unfold _check_file_type at 1. by rewrite Hdot.
Qed.

(** X2: the type of a constructed store is [.json] exactly for the formats
    [json] and [.json], and [.toml] exactly for [toml] and [.toml]: no other
    format string, whatever its case, gives a store that [add_content],
    [get_content] and [update_content] act on. *)
Theorem check_file_type_dispatched cwd name ft dir :
  (file_type (constructed cwd name ft dir) = ".json"
     ↔ ft = "json" ∨ ft = ".json") ∧
  (file_type (constructed cwd name ft dir) = ".toml"
     ↔ ft = "toml" ∨ ft = ".toml").
Proof.
  simpl. unfold _check_file_type.
  split; (split; [| by intros [-> | ->]]).
  all: destruct (Str.contains "." ft); intros Hft;
    cbv [String.append negb] in Hft; simplify_eq; auto.
Qed.

(** X3: a format shorter than four characters, the empty one included,
    cannot contain [json] or [toml]: construction raises the [ValueError]
    of line 50 and does nothing to the filesystem. *)
Theorem init_short_format cwd name ft dir fs :
  (String.length ft < 4)%nat →
  __init__ cwd name ft dir fs = (inl InvalidFormat, fs).
Proof.
  intros Hlen. rewrite init_run.
  destruct (format_accepted ft) eqn:Hf; [| done].
  apply format_accepted_spec in Hf as (t & pre & post & Ht & Heq).
  apply (f_equal String.length) in Heq.
  rewrite !length_append, !length_lower in Heq.
  assert (String.length t = 4) as Ht4.
  { unfold ACCEPTED_CONFIG_TYPES in Ht.
    apply elem_of_cons in Ht as [-> | Ht]; [done |].
    apply list_elem_of_singleton in Ht as ->. done. }
  lia.
Qed.

(** X4: the script at the end of the file constructs its store with the
    empty format, so in every working directory and on every filesystem it
    stops at its first line with the [ValueError] of line 50; nothing is
    written, read or removed. *)
Theorem main_raises cwd fs :
  __main__ cwd fs = (inl InvalidFormat, fs).
Proof.
  unfold __main__, mbind at 1, io_bind at 1.
  rewrite init_run. reflexivity.
Qed.

(** ** A store whose type is neither [.json] nor [.toml] *)

Lemma not_dispatched self :
  ¬ dispatched self →
  bool_decide (file_type self = ".json") = false ∧
  bool_decide (file_type self = ".toml") = false.
Proof.
  unfold dispatched. intros Hd.
  split; apply bool_decide_eq_false_2; intros Hft; apply Hd; auto.
Qed.

Lemma add_content_skip self v fs :
  ¬ dispatched self → add_content self v fs = (inr tt, fs).
Proof.
  intros [Hj Ht]%not_dispatched. unfold add_content. by rewrite Hj, Ht.
Qed.

Lemma get_content_skip self fs c :
  ¬ dispatched self →
  fs !! file_path self = Some (File c) →
  get_content self fs = (inr PyNone, fs).
Proof.
  intros [Hj Ht]%not_dispatched Hc. unfold get_content.
  unfold mbind, io_bind, Os.path_exists, Os.open_rb. rewrite Hc. simpl.
  by rewrite Hc, Hj, Ht.
Qed.

(** X5: on a store whose type is neither [.json] nor [.toml], as the one a
    construction with the format [JSON] returns, [add_content] returns
    without raising and without touching the filesystem: the contents are
    dropped, and a read after the write returns what a read before it
    returned. *)
Theorem add_content_other_type self v fs :
  ¬ dispatched self →
  add_content self v fs = (inr tt, fs) ∧
  get_content self (snd (add_content self v fs)) = get_content self fs.
Proof.
  intros Hd. by rewrite add_content_skip.
Qed.

(** X6: on such a store [get_content] never returns what the file holds:
    it returns [None], not a mapping, when a file is at the path, and the
    empty mapping when nothing is there. *)
Theorem get_content_other_type self fs :
  ¬ dispatched self →
  (∀ c, fs !! file_path self = Some (File c) →
        get_content self fs = (inr PyNone, fs)) ∧
  (fs !! file_path self = None →
     get_content self fs = (inr (PyDict ∅), fs)).
Proof.
  intros Hd. split.
  - intros c Hc. by eapply get_content_skip.
  - apply get_content_absent.
Qed.

Lemma update_content_skip self n fs :
  ¬ dispatched self →
  path_usable self fs →
  update_content self (PyDict n) fs
  = (inr tt, <[file_path self := File ""]> fs).
Proof.
  unfold path_usable. intros Hd Hu.
  destruct (not_dispatched self Hd) as [Hj Ht].
  unfold update_content. simpl.
  unfold mbind at 1. unfold io_bind at 1.
  assert (∃ v, get_content self fs = (inr v, fs)) as [v ->].
  { destruct (fs !! file_path self) as [[c|]|] eqn:Hp; [| done |].
    - exists PyNone. by eapply get_content_skip.
    - exists (PyDict ∅). by apply get_content_absent. }
  unfold mbind, io_bind, Os.open_w.
  destruct (fs !! file_path self) as [[c|]|]; try done.
  all: by rewrite Hj, Ht.
Qed.

(** X7: on such a store [update_content] with a dict stores nothing:
    whenever it returns, the file at the path is empty; and it does return
    when a file is at the path, which has then lost its content. *)
Theorem update_content_other_type self n fs :
  ¬ dispatched self →
  (∀ fs', update_content self (PyDict n) fs = (inr tt, fs') →
          fs' = <[file_path self := File ""]> fs) ∧
  (∀ c, fs !! file_path self = Some (File c) →
        update_content self (PyDict n) fs
        = (inr tt, <[file_path self := File ""]> fs)).
Proof.
  intros Hd. split.
  - intros fs' Hrun.
    assert (path_usable self fs) as Hu.
    { revert Hrun. unfold update_content. simpl.
      unfold mbind at 1. unfold io_bind at 1.
      destruct (get_content self fs) as [[e|v] fs1] eqn:Hg; [done |].
      intros _. apply (get_content_usable self fs v). by rewrite Hg. }
    rewrite update_content_skip in Hrun by done. by injection Hrun as <-.
  - intros c Hc. apply update_content_skip; [done |].
    unfold path_usable. by rewrite Hc.
Qed.

(** ** What a method leaves alone *)

Lemma add_content_writes self v fs :
  dispatched self → path_usable self fs →
  ∃ text, snd (add_content self v fs) = <[file_path self := File text]> fs.
Proof.
  intros [Hft | Hft] Hu.
  - rewrite add_content_json_run by done. eauto.
  - rewrite add_content_toml_run by done.
    destruct (tomli_w_dumps v) as [t|]; [| eauto].
    destruct (tomllib_loads t); eauto.
Qed.

Lemma add_content_directory self v fs :
  dispatched self → fs !! file_path self = Some Dir →
  add_content self v fs = (inl IsADirectoryError, fs).
Proof.
  intros Hd Hp. unfold add_content.
  destruct Hd as [-> | ->]; simpl; unfold mbind, io_bind, Os.open_w;
    by rewrite Hp.
Qed.

Lemma directory_or_usable self fs :
  fs !! file_path self = Some Dir ∨ path_usable self fs.
Proof.
  unfold path_usable.
  destruct (fs !! file_path self) as [[c|]|]; [by right | by left | by right].
Qed.

(** X8: [add_content] replaces, it does not add to what was written
    before: writing [m1] and then [m2] ends with the same result and the
    same filesystem as writing [m2] alone, for every store and whether or
    not either write raises. *)
Theorem add_content_last_write_wins self m1 m2 fs :
  add_content self m2 (snd (add_content self m1 fs)) = add_content self m2 fs.
Proof.
  destruct (decide (dispatched self)) as [Hd | Hd];
    [| by rewrite !add_content_skip].
  destruct (directory_or_usable self fs) as [Hp | Hp].
  { by rewrite (add_content_directory self m1). }
  destruct (add_content_writes self m1 fs Hd Hp) as [text ->].
  assert (path_usable self (<[file_path self := File text]> fs)) as Hu
    by (unfold path_usable; by rewrite lookup_insert_eq).
  destruct Hd as [Hft | Hft].
  - rewrite (add_content_json_run self m2 fs Hft Hp),
      (add_content_json_run self m2 _ Hft Hu).
    by rewrite insert_insert_eq.
  - rewrite (add_content_toml_run self m2 fs Hft Hp),
      (add_content_toml_run self m2 _ Hft Hu).
    destruct (tomli_w_dumps m2) as [t|]; [destruct (tomllib_loads t) |];
      by rewrite insert_insert_eq.
Qed.

Lemma add_content_lookup_ne self v fs p :
  p ≠ file_path self →
  snd (add_content self v fs) !! p = fs !! p.
Proof.
  intros Hne.
  destruct (decide (dispatched self)) as [Hd | Hd];
    [| by rewrite add_content_skip].
  destruct (directory_or_usable self fs) as [Hp | Hp].
  { by rewrite add_content_directory. }
  destruct (add_content_writes self v fs Hd Hp) as [text ->].
  by rewrite lookup_insert_ne.
Qed.

Lemma add_content_keeps_nodes self v fs p :
  is_Some (fs !! p) → is_Some (snd (add_content self v fs) !! p).
Proof.
  intros Hp. destruct (decide (p = file_path self)) as [-> | Hne];
    [| by rewrite add_content_lookup_ne].
  destruct (decide (dispatched self)) as [Hd | Hd];
    [| by rewrite add_content_skip].
  destruct (directory_or_usable self fs) as [Hdir | Hdir].
  { by rewrite add_content_directory. }
  destruct (add_content_writes self v fs Hd Hdir) as [text ->].
  rewrite lookup_insert_eq. eauto.
Qed.

(** X9: [add_content] changes no path but the store's own and removes
    nothing, on every store and whether it returns or raises. *)
Theorem add_content_frame self v fs :
  (∀ p, p ≠ file_path self →
        snd (add_content self v fs) !! p = fs !! p) ∧
  (∀ p, is_Some (fs !! p) → is_Some (snd (add_content self v fs) !! p)).
Proof.
  split; intros p Hp.
  - by apply add_content_lookup_ne.
  - by apply add_content_keeps_nodes.
Qed.

(** X10: [get_content] never changes the filesystem, whatever it returns
    or raises, so reading again gives the same. *)
Theorem get_content_reads_only self fs :
  snd (get_content self fs) = fs ∧
  get_content self (snd (get_content self fs)) = get_content self fs.
Proof. by rewrite get_content_frame. Qed.

(** X11: [update_content] changes no path but the store's own, for every
    argument and whether it returns or raises. *)
Theorem update_content_frame self v fs p :
  p ≠ file_path self →
  snd (update_content self v fs) !! p = fs !! p.
Proof.
  intros Hne. unfold update_content.
  destruct (isinstance_dict v); simpl; [| done].
  unfold mbind at 1. unfold io_bind at 1.
  pose proof (get_content_frame self fs) as Hg.
  destruct (get_content self fs) as [[e|c] fs1]; simpl in Hg; subst fs1;
    [done |].
  unfold mbind at 1. unfold io_bind at 1. unfold Os.open_w.
  destruct (fs !! file_path self) as [[?|]|] eqn:Hp; [| done |].
  all: repeat case_bool_decide.
  all: unfold mbind, io_bind, dict_update, Os.write; destruct c, v; simpl.
  all: rewrite ?lookup_insert_eq; simpl.
  all: rewrite ?add_content_lookup_ne by done.
  all: rewrite ?insert_insert_eq; by rewrite ?lookup_insert_ne by done.
Qed.

(** ** Construction *)

(** X12: construction never changes or removes what is in the filesystem:
    every path that holds a file or a directory before holds the same
    afterwards, whether construction returns or raises. *)
Theorem init_keeps_nodes cwd name ft dir fs p n :
  fs !! p = Some n →
  snd (__init__ cwd name ft dir fs) !! p = Some n.
Proof.
  intros Hp. rewrite init_run.
  destruct (negb (format_accepted ft)); [done |].
  assert (snd (if bool_decide (is_Some (fs !! or_getcwd dir cwd))
               then (inr tt, fs)
               else Os.makedirs (or_getcwd dir cwd) fs) !! p = Some n) as Hm.
  { destruct (bool_decide _); [done |]. by apply mkdir_each_lookup. }
  destruct (if bool_decide _ then _ else _) as [[e|[]] fs1]; simpl in Hm;
    [done |].
  case_bool_decide as Hpath; [done |].
  assert (p ≠ derived_path cwd name ft dir) as Hne.
  { intros ->. apply Hpath. eauto. }
  pose proof (add_content_lookup_ne (constructed cwd name ft dir) (PyDict ∅)
                fs1 p Hne) as Hf.
  destruct (add_content _ _ fs1) as [[e|[]] fs2]; simpl in *; congruence.
Qed.

Lemma segments_last pre rest : pre +:+ rest ∈ Os.segments pre rest.
Proof.
  revert pre. induction rest as [|c rest IH]; intros pre; simpl.
  - rewrite append_empty_r. apply list_elem_of_singleton. done.
  - apply elem_of_app. right.
    pose proof (IH (pre +:+ String c "")) as Hin.
    by rewrite append_assoc in Hin.
Qed.

Lemma mkdir_each_creates ps fs fs' p :
  Os.mkdir_each ps fs = (inr tt, fs') → p ∈ ps → is_Some (fs' !! p).
Proof.
  revert fs. induction ps as [|q ps IH]; intros fs Hrun Hin.
  - by apply elem_of_nil in Hin.
  - simpl in Hrun. apply elem_of_cons in Hin.
    destruct (fs !! q) as [[c|]|] eqn:Hq.
    + by destruct ps.
    + destruct ps as [|q' ps]; [done |].
      destruct Hin as [-> | Hin]; [| by eapply IH].
      pose proof (mkdir_each_lookup (q' :: ps) fs q Dir Hq) as Hk.
      rewrite Hrun in Hk. eauto.
    + destruct Hin as [-> | Hin]; [| by eapply IH].
      pose proof (mkdir_each_lookup ps (<[q := Dir]> fs) q Dir
                    (lookup_insert_eq _ _ _)) as Hk.
      rewrite Hrun in Hk. eauto.
Qed.

Lemma makedirs_if_absent_creates d fs fs1 :
  (if bool_decide (is_Some (fs !! d)) then (inr tt, fs) else Os.makedirs d fs)
  = (inr tt, fs1) →
  is_Some (fs1 !! d).
Proof.
  case_bool_decide as Hd; [by intros [= <-] |].
  intros Hrun. eapply mkdir_each_creates; [exact Hrun |].
  apply (segments_last "" d).
Qed.

(** What a construction that returns has done. *)
Lemma init_returns cwd name ft dir fs self fs' :
  __init__ cwd name ft dir fs = (inr self, fs') →
  self = constructed cwd name ft dir ∧
  format_accepted ft = true ∧
  is_Some (fs' !! or_getcwd dir cwd) ∧
  (dispatched (constructed cwd name ft dir) →
     is_Some (fs' !! derived_path cwd name ft dir)).
Proof.
  rewrite init_run. destruct (format_accepted ft); [| done]. simpl.
  pose proof (makedirs_if_absent_creates (or_getcwd dir cwd) fs) as Hm.
  destruct (if bool_decide _ then _ else _) as [[e|[]] fs1]; [done |].
  specialize (Hm fs1 eq_refl).
  case_bool_decide as Hpath; [by intros [= <- <-] |].
  pose proof (add_content_keeps_nodes (constructed cwd name ft dir)
                (PyDict ∅) fs1 _ Hm) as Hk.
  destruct (add_content _ _ fs1) as [[e|[]] fs2] eqn:Ha; [done |].
  intros [= <- <-]. repeat split; [done |]. intros Hd.
  destruct (add_content_writes (constructed cwd name ft dir) (PyDict ∅)
              fs1 Hd) as [text Hw].
  { unfold path_usable. simpl. intros Hx. apply Hpath. eauto. }
  rewrite Ha in Hw. simpl in Hw. subst fs2.
  simpl. rewrite lookup_insert_eq. eauto.
Qed.

(** X13: after a construction that returns, the directory of the store
    exists, and so does the file when the format is one of [json],
    [.json], [toml] and [.toml]. *)
Theorem init_directory_exists cwd name ft dir fs self fs' :
  __init__ cwd name ft dir fs = (inr self, fs') →
  default_directory self = or_getcwd dir cwd ∧
  is_Some (fs' !! default_directory self) ∧
  (dispatched self → is_Some (fs' !! file_path self)).
Proof.
  intros (-> & _ & Hd & Hp)%init_returns. done.
Qed.

(** X14: construction is idempotent: constructing again with the same
    arguments, on the filesystem a construction that returned has left,
    returns the same object and changes nothing. *)
Theorem init_twice cwd name ft dir fs self fs' :
  __init__ cwd name ft dir fs = (inr self, fs') →
  __init__ cwd name ft dir fs' = (inr self, fs').
Proof.
  intros (-> & Hf & Hdir & Hp)%init_returns.
  rewrite init_run, Hf. simpl.
  rewrite bool_decide_eq_true_2 by done.
  case_bool_decide as Hpath; [done |].
  rewrite add_content_skip; [done |].
  intros Hd. by apply Hpath, Hp.
Qed.

(** ** Merging, further *)

(** X15: when the read at the start of [update_content] raises, on a file
    that does not parse for instance, [update_content] raises the same
    exception and the filesystem is as before: the file has not been
    opened for writing. *)
Theorem update_content_read_error self n fs e :
  fst (get_content self fs) = inl e →
  update_content self (PyDict n) fs = (inl e, fs).
Proof.
  intros Hg. pose proof (get_content_frame self fs) as Hf.
  unfold update_content. simpl. unfold mbind, io_bind.
  destruct (get_content self fs) as [r fs1]. simpl in *. by subst.
Qed.

(** X16: when the file of a JSON or TOML store parses to a value that is
    not a mapping, a JSON list for instance, [update_content] raises
    [AttributeError] after it has opened the file for writing: the file is
    left empty. *)
Theorem update_content_not_mapping self n fs v :
  dispatched self →
  fst (get_content self fs) = inr v →
  isinstance_dict v = false →
  update_content self (PyDict n) fs
  = (inl AttributeError, <[file_path self := File ""]> fs).
Proof.
  intros Hd Hg Hv. pose proof (get_content_usable _ _ _ Hg) as Hu.
  pose proof (get_content_frame self fs) as Hf.
  unfold update_content. simpl. unfold mbind at 1. unfold io_bind at 1.
  destruct (get_content self fs) as [r fs1]. simpl in *. subst r fs1.
  unfold path_usable in Hu. unfold mbind at 1. unfold io_bind at 1.
  unfold Os.open_w.
  destruct (fs !! file_path self) as [[?|]|]; [| done |].
  all: destruct Hd as [-> | ->]; simpl; by destruct v.
Qed.

Lemma update_content_stores self fs c n :
  representable (file_type self) (Some 2%nat) (PyDict (n ∪ c)) →
  fst (get_content self fs) = inr (PyDict c) →
  ∃ text,
    serialised (file_type self) (Some 2%nat) (PyDict (n ∪ c)) = Some text ∧
    update_content self (PyDict n) fs
    = (inr tt, <[file_path self := File text]> fs) ∧
    get_content self (<[file_path self := File text]> fs)
    = (inr (PyDict (n ∪ c)), <[file_path self := File text]> fs).
Proof.
  intros [[Hft Hr] | [Hft (text & Hw & Hr)]] Hg; unfold serialised;
    rewrite Hft; simpl.
  - eexists. split; [done |].
    erewrite update_content_json_run by done. split; [done |].
    erewrite get_content_json_run; [| done | apply lookup_insert_eq].
    by rewrite Hr.
  - exists text. split; [done |].
    erewrite update_content_toml_run by done.
    rewrite add_content_toml_run, Hw, Hr;
      [| done | unfold path_usable; by rewrite lookup_insert_eq].
    rewrite insert_insert_eq. split; [done |].
    erewrite get_content_toml_run; [| done | apply lookup_insert_eq].
    by rewrite Hr.
Qed.

(** X17: on a JSON or TOML store with no file at the path,
    [update_content] creates the file and stores the new values alone. *)
Theorem update_content_absent_file self n fs :
  fs !! file_path self = None →
  representable (file_type self) (Some 2%nat) (PyDict n) →
  ∃ text,
    serialised (file_type self) (Some 2%nat) (PyDict n) = Some text ∧
    update_content self (PyDict n) fs
    = (inr tt, <[file_path self := File text]> fs) ∧
    get_content self (<[file_path self := File text]> fs)
    = (inr (PyDict n), <[file_path self := File text]> fs).
Proof.
  intros Hp Hr.
  destruct (update_content_stores self fs ∅ n) as (text & Hs & Hu & Hg).
  - by rewrite (right_id_L ∅ (∪)).
  - by rewrite get_content_absent.
  - rewrite (right_id_L ∅ (∪)) in Hs, Hg. eauto.
Qed.

(** X18: two merges in a row are one merge: merging [n1] and then [n2]
    returns, as does merging, in one call, [n1] updated with [n2], and
    after either the store reads as the same mapping. *)
Theorem update_content_twice self fs c n1 n2 :
  representable (file_type self) (Some 2%nat) (PyDict (n1 ∪ c)) →
  representable (file_type self) (Some 2%nat) (PyDict (n2 ∪ (n1 ∪ c))) →
  fst (get_content self fs) = inr (PyDict c) →
  ∃ fs1 fs2 fs',
    update_content self (PyDict n1) fs = (inr tt, fs1) ∧
    update_content self (PyDict n2) fs1 = (inr tt, fs2) ∧
    update_content self (PyDict (n2 ∪ n1)) fs = (inr tt, fs') ∧
    get_content self fs2 = (inr (PyDict (n2 ∪ n1 ∪ c)), fs2) ∧
    get_content self fs' = (inr (PyDict (n2 ∪ n1 ∪ c)), fs').
Proof.
  intros Hr1 Hr2 Hg.
  destruct (update_content_stores self fs c n1 Hr1 Hg) as (t1 & _ & Hu1 & Hg1).
  destruct (update_content_stores self (<[file_path self := File t1]> fs)
              (n1 ∪ c) n2 Hr2) as (t2 & _ & Hu2 & Hg2); [by rewrite Hg1 |].
  rewrite (assoc_L (∪)) in Hr2, Hg2.
  destruct (update_content_stores self fs c (n2 ∪ n1) Hr2 Hg)
    as (t & _ & Hu & Hg').
  eauto 10.
Qed.

(** X19: merging the same values again changes nothing: after a merge of
    [n], a second merge of [n] returns and leaves the filesystem as it
    was. *)
Theorem update_content_again self fs c n :
  representable (file_type self) (Some 2%nat) (PyDict (n ∪ c)) →
  fst (get_content self fs) = inr (PyDict c) →
  update_content self (PyDict n) (snd (update_content self (PyDict n) fs))
  = (inr tt, snd (update_content self (PyDict n) fs)).
Proof.
  intros Hr Hg.
  destruct (update_content_stores self fs c n Hr Hg) as (t & Hs & -> & Hg1).
  simpl.
  assert (n ∪ (n ∪ c) = n ∪ c) as Hm
    by (by rewrite (assoc_L (∪)), (idemp_L (∪))).
  destruct (update_content_stores self (<[file_path self := File t]> fs)
              (n ∪ c) n) as (t' & Hs' & -> & _);
    [by rewrite Hm | by rewrite Hg1 |].
  rewrite Hm, Hs in Hs'. injection Hs' as <-. by rewrite insert_insert_eq.
Qed.

(** X20: merging the empty mapping keeps the content: the file is written
    again and reads as the mapping it read as before. *)
Theorem update_content_empty self fs c :
  representable (file_type self) (Some 2%nat) (PyDict c) →
  fst (get_content self fs) = inr (PyDict c) →
  ∃ fs', update_content self (PyDict ∅) fs = (inr tt, fs') ∧
         get_content self fs' = (inr (PyDict c), fs').
Proof.
  intros Hr Hg.
  destruct (update_content_stores self fs c ∅) as (t & _ & Hu & Hg');
    [by rewrite (left_id_L ∅ (∪)) | done |].
  rewrite (left_id_L ∅ (∪)) in Hg'. eauto.
Qed.

(** X21: a write followed by a merge reads as the written mapping,
    updated with the new values. *)
Theorem add_then_update self fs c n :
  path_usable self fs →
  representable (file_type self) None (PyDict c) →
  representable (file_type self) (Some 2%nat) (PyDict (n ∪ c)) →
  ∃ fs1 fs2,
    add_content self (PyDict c) fs = (inr tt, fs1) ∧
    update_content self (PyDict n) fs1 = (inr tt, fs2) ∧
    get_content self fs2 = (inr (PyDict (n ∪ c)), fs2).
Proof.
  intros Hu Hc Hr.
  assert (∃ fs1, add_content self (PyDict c) fs = (inr tt, fs1) ∧
                 get_content self fs1 = (inr (PyDict c), fs1))
    as (fs1 & Ha & Hg).
  { destruct Hc as [[Hft Hc] | [Hft (text & Hw & Hc)]].
    - rewrite add_content_json_run by done. eexists. split; [done |].
      erewrite get_content_json_run; [| done | apply lookup_insert_eq].
      by rewrite Hc.
    - rewrite add_content_toml_run, Hw, Hc by done. eexists. split; [done |].
      erewrite get_content_toml_run; [| done | apply lookup_insert_eq].
      by rewrite Hc. }
  destruct (update_content_stores self fs1 c n Hr) as (t & _ & Hup & Hg2);
    [by rewrite Hg |].
  eauto.
Qed.

(** ** Removing twice *)

(** X22: after [destroy_config] has removed the file, a second
    [destroy_config] raises [FileNotFoundError] and changes nothing. *)
Theorem destroy_config_twice self fs c :
  fs !! file_path self = Some (File c) →
  destroy_config self (snd (destroy_config self fs))
  = (inl FileNotFoundError, delete (file_path self) fs).
Proof.
  intros Hc. unfold destroy_config, Os.remove. rewrite Hc. simpl.
  by rewrite lookup_delete_eq.
Qed.

(** ** What a TOML file can hold, and a fresh store *)

(** X23: after [add_content] on a TOML store the file never holds a text
    that fails to parse: when [add_content] returns, the file holds the
    writer's text and that text parses; when it raises, the file is
    empty. *)
Theorem add_content_toml_file self m fs :
  file_type self = ".toml" →
  path_usable self fs →
  ∃ text,
    snd (add_content self m fs) !! file_path self = Some (File text) ∧
    (fst (add_content self m fs) = inr tt →
       tomli_w_dumps m = Some text ∧ is_Some (tomllib_loads text)) ∧
    (fst (add_content self m fs) ≠ inr tt → text = "").
Proof.
  intros Hft Hu. rewrite add_content_toml_run by done.
  destruct (tomli_w_dumps m) as [t|];
    [destruct (tomllib_loads t) eqn:Hr |]; simpl.
  - exists t. rewrite lookup_insert_eq. split; [done |]. split; [eauto |].
    by intros [].
  - exists "". rewrite lookup_insert_eq. done.
  - exists "". rewrite lookup_insert_eq. done.
Qed.

(** X24: when a construction returns, where the directory existed and the
    file did not, the store it returns reads as the empty mapping: for the
    formats [json], [.json], [toml] and [.toml] because the file was
    written with the empty mapping, when the format represents it, and
    for every other accepted format because no file was written. *)
Theorem init_then_get cwd name ft dir fs self fs' :
  __init__ cwd name ft dir fs = (inr self, fs') →
  is_Some (fs !! or_getcwd dir cwd) →
  fs !! derived_path cwd name ft dir = None →
  (dispatched self → representable (file_type self) None (PyDict ∅)) →
  get_content self fs' = (inr (PyDict ∅), fs').
Proof.
  intros Hrun Hd Hp Hr.
  destruct (init_returns _ _ _ _ _ _ _ Hrun) as (-> & Hf & _ & _).
  destruct (init_writes_empty_mapping cwd name ft dir fs Hd Hp) as [Hj Ht].
  destruct (decide (dispatched (constructed cwd name ft dir))) as [Hdis | Hdis].
  - destruct (Hr Hdis) as [[Hft Hrj] | [Hft (text & Hw & Hrt)]].
    + rewrite (Hj Hft) in Hrun. injection Hrun as <-.
      erewrite get_content_json_run; [| done | apply lookup_insert_eq].
      by rewrite Hrj.
    + rewrite (Ht Hft text Hw) in Hrun by eauto. injection Hrun as <-.
      erewrite get_content_toml_run; [| done | apply lookup_insert_eq].
      by rewrite Hrt.
  - revert Hrun. rewrite init_run, Hf. simpl.
    rewrite bool_decide_eq_true_2 by done.
    rewrite bool_decide_eq_false_2 by (rewrite Hp; by intros []).
    rewrite add_content_skip by done. intros [= <-].
    by apply get_content_absent.
Qed.

End Behaviour.

(** * The further properties on concrete stores *)

Section MoreExamples.
Import Demo.
#[local] Existing Instance Ref.codec.

Lemma capitals_not_dispatched : ¬ dispatched capitals_store.
Proof. intros [Hft | Hft]; discriminate Hft. Qed.

Lemma init_short_format_witness :
  (String.length "ml" < 4)%nat ∧
  __init__ "/home/user" "settings" "ml" None ∅ = (inl InvalidFormat, ∅).
Proof.
  assert (String.length "ml" < 4)%nat as Hlen by (simpl; lia).
  split; [exact Hlen |].
  exact (init_short_format "/home/user" "settings" "ml" None ∅ Hlen).
Defined.

Lemma add_content_other_type_witness :
  ¬ dispatched capitals_store ∧
  add_content capitals_store (PyDict settings) with_capitals_file
    = (inr tt, with_capitals_file) ∧
  get_content capitals_store
    (snd (add_content capitals_store (PyDict settings) with_capitals_file))
    = get_content capitals_store with_capitals_file.
Proof.
  split; [exact capitals_not_dispatched |].
  exact (add_content_other_type capitals_store (PyDict settings)
           with_capitals_file capitals_not_dispatched).
Defined.

Lemma get_content_other_type_witness :
  ¬ dispatched capitals_store ∧
  with_capitals_file !! file_path capitals_store = Some (File "kept") ∧
  get_content capitals_store with_capitals_file = (inr PyNone, with_capitals_file) ∧
  get_content capitals_store ∅ = (inr (PyDict ∅), ∅).
Proof.
  assert (with_capitals_file !! file_path capitals_store = Some (File "kept"))
    as Hc by (vm_compute; reflexivity).
  destruct (get_content_other_type capitals_store with_capitals_file
              capitals_not_dispatched) as [Hfile _].
  destruct (get_content_other_type capitals_store ∅ capitals_not_dispatched)
    as [_ Habsent].
  split; [exact capitals_not_dispatched |]. split; [exact Hc |].
  split; [exact (Hfile "kept" Hc) | apply Habsent; reflexivity].
Defined.

Lemma update_content_other_type_witness :
  ¬ dispatched capitals_store ∧
  with_capitals_file !! file_path capitals_store = Some (File "kept") ∧
  update_content capitals_store (PyDict {["a" := PyInt 1]}) with_capitals_file
    = (inr tt, {[ "/etc/app" := Dir; "/etc/app/settings.JSON" := File "" ]}).
Proof.
  assert (with_capitals_file !! file_path capitals_store = Some (File "kept"))
    as Hc by (vm_compute; reflexivity).
  destruct (update_content_other_type capitals_store {["a" := PyInt 1]}
              with_capitals_file capitals_not_dispatched) as [_ Hfile].
  split; [exact capitals_not_dispatched |]. split; [exact Hc |].
  rewrite (Hfile "kept" Hc). vm_compute. reflexivity.
Defined.

Lemma add_content_frame_witness :
  "/etc/app" ≠ file_path toml_store ∧
  snd (add_content toml_store (PyDict settings_with_none) with_old_file)
    !! "/etc/app" = Some Dir.
Proof.
  assert ("/etc/app" ≠ file_path toml_store) as Hne by (by vm_compute).
  split; [exact Hne |].
  destruct (add_content_frame toml_store (PyDict settings_with_none)
              with_old_file) as [Hother _].
  rewrite (Hother "/etc/app" Hne). vm_compute. reflexivity.
Defined.

Lemma update_content_frame_witness :
  "/etc/app" ≠ file_path json_store ∧
  snd (update_content json_store (PyDict {["a" := PyInt 1]}) with_list_file)
    !! "/etc/app" = Some Dir.
Proof.
  assert ("/etc/app" ≠ file_path json_store) as Hne by (by vm_compute).
  split; [exact Hne |].
  rewrite (update_content_frame json_store (PyDict {["a" := PyInt 1]})
             with_list_file "/etc/app" Hne).
  vm_compute. reflexivity.
Defined.

Lemma init_keeps_nodes_witness :
  with_capitals_file !! "/etc/app/settings.JSON" = Some (File "kept") ∧
  snd (__init__ "/home/user" "settings" "toml" (Some "/etc/app/settings.JSON/x")
         with_capitals_file) !! "/etc/app/settings.JSON" = Some (File "kept").
Proof.
  assert (with_capitals_file !! "/etc/app/settings.JSON" = Some (File "kept"))
    as Hc by (vm_compute; reflexivity).
  split; [exact Hc |].
  exact (init_keeps_nodes "/home/user" "settings" "toml"
           (Some "/etc/app/settings.JSON/x") with_capitals_file _ _ Hc).
Defined.

Lemma init_directory_exists_witness :
  __init__ "/home/user" "settings" "json" (Some "/etc/app") ∅
    = (inr json_store, fresh Ref.codec "json") ∧
  default_directory json_store = "/etc/app" ∧
  is_Some (fresh Ref.codec "json" !! default_directory json_store) ∧
  (dispatched json_store →
     is_Some (fresh Ref.codec "json" !! file_path json_store)).
Proof.
  assert (__init__ "/home/user" "settings" "json" (Some "/etc/app") ∅
          = (inr json_store, fresh Ref.codec "json")) as Hrun
    by (vm_compute; reflexivity).
  split; [exact Hrun |].
  exact (init_directory_exists _ _ _ _ _ _ _ Hrun).
Defined.

Lemma init_twice_witness :
  __init__ "/home/user" "settings" "JSON" None ∅
    = (inr (constructed "/home/user" "settings" "JSON" None),
       {[ "/home" := Dir; "/home/user" := Dir ]}) ∧
  __init__ "/home/user" "settings" "JSON" None
      {[ "/home" := Dir; "/home/user" := Dir ]}
    = (inr (constructed "/home/user" "settings" "JSON" None),
       {[ "/home" := Dir; "/home/user" := Dir ]}).
Proof.
  assert (__init__ "/home/user" "settings" "JSON" None ∅
          = (inr (constructed "/home/user" "settings" "JSON" None),
             {[ "/home" := Dir; "/home/user" := Dir ]})) as Hrun
    by (vm_compute; reflexivity).
  split; [exact Hrun |].
  exact (init_twice _ _ _ _ _ _ _ Hrun).
Defined.

Lemma update_content_read_error_witness :
  fst (get_content json_store with_broken_file) = inl JSONDecodeError ∧
  update_content json_store (PyDict {["a" := PyInt 1]}) with_broken_file
    = (inl JSONDecodeError, with_broken_file).
Proof.
  assert (fst (get_content json_store with_broken_file) = inl JSONDecodeError)
    as Hg by (vm_compute; reflexivity).
  split; [exact Hg |].
  exact (update_content_read_error json_store {["a" := PyInt 1]}
           with_broken_file JSONDecodeError Hg).
Defined.

Lemma update_content_not_mapping_witness :
  dispatched json_store ∧
  fst (get_content json_store with_list_file)
    = inr (PyList [PyInt 1; PyInt 2]) ∧
  update_content json_store (PyDict {["a" := PyInt 1]}) with_list_file
    = (inl AttributeError,
       {[ "/etc/app" := Dir; "/etc/app/settings.json" := File "" ]}).
Proof.
  assert (dispatched json_store) as Hd by (left; reflexivity).
  assert (fst (get_content json_store with_list_file)
          = inr (PyList [PyInt 1; PyInt 2])) as Hg by (vm_compute; reflexivity).
  split; [exact Hd |]. split; [exact Hg |].
  rewrite (update_content_not_mapping json_store {["a" := PyInt 1]}
             with_list_file _ Hd Hg eq_refl).
  vm_compute. reflexivity.
Defined.

Lemma json_represents indent m :
  json_load (json_dump indent m) = Some m →
  representable (file_type json_store) indent m.
Proof. intros Hm. left. split; [reflexivity | exact Hm]. Qed.

Lemma toml_represents indent m text :
  tomli_w_dumps m = Some text → tomllib_loads text = Some m →
  representable (file_type toml_store) indent m.
Proof. intros Hw Hr. right. split; [reflexivity | by exists text]. Qed.

Lemma update_content_absent_file_witness :
  (∅ : filesystem) !! file_path toml_store = None ∧
  representable (file_type toml_store) (Some 2%nat) (PyDict settings) ∧
  ∃ text,
    serialised (file_type toml_store) (Some 2%nat) (PyDict settings) = Some text ∧
    update_content toml_store (PyDict settings) ∅
    = (inr tt, <[file_path toml_store := File text]> ∅) ∧
    get_content toml_store (<[file_path toml_store := File text]> ∅)
    = (inr (PyDict settings), <[file_path toml_store := File text]> ∅).
Proof.
  assert (representable (file_type toml_store) (Some 2%nat) (PyDict settings))
    as Hr by (eapply toml_represents;
              [vm_compute; reflexivity | vm_compute; reflexivity]).
  split; [reflexivity |]. split; [exact Hr |].
  exact (update_content_absent_file toml_store settings ∅ eq_refl Hr).
Defined.

Lemma update_content_twice_witness :
  fst (get_content json_store json_written) = inr (PyDict settings) ∧
  ∃ fs1 fs2 fs',
    update_content json_store
      (PyDict {["port" := PyInt 1; "debug" := PyBool true]}) json_written
    = (inr tt, fs1) ∧
    update_content json_store (PyDict {["port" := PyInt 9090]}) fs1
    = (inr tt, fs2) ∧
    update_content json_store
      (PyDict ({["port" := PyInt 9090]}
               ∪ {["port" := PyInt 1; "debug" := PyBool true]})) json_written
    = (inr tt, fs') ∧
    get_content json_store fs2
    = (inr (PyDict ({["port" := PyInt 9090]}
                    ∪ {["port" := PyInt 1; "debug" := PyBool true]}
                    ∪ settings)), fs2) ∧
    get_content json_store fs'
    = (inr (PyDict ({["port" := PyInt 9090]}
                    ∪ {["port" := PyInt 1; "debug" := PyBool true]}
                    ∪ settings)), fs').
Proof.
  assert (fst (get_content json_store json_written) = inr (PyDict settings))
    as Hg by (vm_compute; reflexivity).
  split; [exact Hg |].
  apply (update_content_twice json_store json_written settings
           {["port" := PyInt 1; "debug" := PyBool true]}
           {["port" := PyInt 9090]});
    [apply json_represents; vm_compute; reflexivity
    | apply json_represents; vm_compute; reflexivity
    | exact Hg].
Defined.

Lemma update_content_again_witness :
  fst (get_content toml_store toml_written) = inr (PyDict settings) ∧
  update_content toml_store (PyDict {["port" := PyInt 9090]})
    (snd (update_content toml_store (PyDict {["port" := PyInt 9090]}) toml_written))
  = (inr tt,
     snd (update_content toml_store (PyDict {["port" := PyInt 9090]}) toml_written)).
Proof.
  assert (fst (get_content toml_store toml_written) = inr (PyDict settings))
    as Hg by (vm_compute; reflexivity).
  split; [exact Hg |].
  apply (update_content_again toml_store toml_written settings
           {["port" := PyInt 9090]}); [| exact Hg].
  eapply toml_represents; [vm_compute; reflexivity | vm_compute; reflexivity].
Defined.

Lemma update_content_empty_witness :
  fst (get_content json_store json_written) = inr (PyDict settings) ∧
  ∃ fs', update_content json_store (PyDict ∅) json_written = (inr tt, fs') ∧
         get_content json_store fs' = (inr (PyDict settings), fs').
Proof.
  assert (fst (get_content json_store json_written) = inr (PyDict settings))
    as Hg by (vm_compute; reflexivity).
  split; [exact Hg |].
  apply (update_content_empty json_store json_written settings); [| exact Hg].
  apply json_represents; vm_compute; reflexivity.
Defined.

Lemma add_then_update_witness :
  path_usable toml_store ∅ ∧
  ∃ fs1 fs2,
    add_content toml_store (PyDict settings) ∅ = (inr tt, fs1) ∧
    update_content toml_store (PyDict {["limits" := PyInt 0]}) fs1 = (inr tt, fs2) ∧
    get_content toml_store fs2
    = (inr (PyDict ({["limits" := PyInt 0]} ∪ settings)), fs2).
Proof.
  assert (path_usable toml_store ∅) as Hu by (by vm_compute).
  split; [exact Hu |].
  apply (add_then_update toml_store ∅ settings {["limits" := PyInt 0]} Hu);
    (eapply toml_represents;
       [vm_compute; reflexivity | vm_compute; reflexivity]).
Defined.

Lemma destroy_config_twice_witness :
  with_old_file !! file_path json_store = Some (File "{}") ∧
  destroy_config json_store (snd (destroy_config json_store with_old_file))
    = (inl FileNotFoundError, {[ "/etc/app" := Dir ]}).
Proof.
  assert (with_old_file !! file_path json_store = Some (File "{}")) as Hc
    by (vm_compute; reflexivity).
  split; [exact Hc |].
  rewrite (destroy_config_twice json_store with_old_file "{}" Hc).
  vm_compute. reflexivity.
Defined.

Lemma add_content_toml_file_witness :
  path_usable toml_store toml_written ∧
  ∃ text,
    snd (add_content toml_store (PyDict settings_with_none) toml_written)
      !! file_path toml_store = Some (File text) ∧
    text = "".
Proof.
  assert (path_usable toml_store toml_written) as Hu by (by vm_compute).
  split; [exact Hu |].
  destruct (add_content_toml_file toml_store (PyDict settings_with_none)
              toml_written eq_refl Hu) as (text & Hfile & _ & Hraise).
  exists text. split; [exact Hfile |].
  apply Hraise. vm_compute. discriminate.
Defined.

Lemma init_then_get_witness :
  (__init__ "/home/user" "settings" "toml" (Some "/etc/app") with_directory
     = (inr toml_store, constructed_in_directory Ref.codec "toml") ∧
   get_content toml_store (constructed_in_directory Ref.codec "toml")
     = (inr (PyDict ∅), constructed_in_directory Ref.codec "toml")) ∧
  (__init__ "/home/user" "settings" "JSON" (Some "/etc/app") with_directory
     = (inr capitals_store, constructed_in_directory Ref.codec "JSON") ∧
   get_content capitals_store (constructed_in_directory Ref.codec "JSON")
     = (inr (PyDict ∅), constructed_in_directory Ref.codec "JSON")).
Proof.
  assert (__init__ "/home/user" "settings" "toml" (Some "/etc/app")
            with_directory
          = (inr toml_store, constructed_in_directory Ref.codec "toml"))
    as Htoml by (vm_compute; reflexivity).
  assert (__init__ "/home/user" "settings" "JSON" (Some "/etc/app")
            with_directory
          = (inr capitals_store, constructed_in_directory Ref.codec "JSON"))
    as Hcap by (vm_compute; reflexivity).
  split; (split; [done |]).
  - apply (init_then_get _ _ _ _ _ _ _ Htoml).
    + vm_compute. eauto.
    + vm_compute. reflexivity.
    + intros _. eapply toml_represents;
        [vm_compute; reflexivity | vm_compute; reflexivity].
  - apply (init_then_get _ _ _ _ _ _ _ Hcap).
    + vm_compute. eauto.
    + vm_compute. reflexivity.
    + intros Hd. destruct (capitals_not_dispatched Hd).
Defined.

End MoreExamples.
